(** * WinSAT Viewer: a shallow embedding of [WinSAT_Viewer.py]

    The program is a small Tk front end: it resolves a PowerShell
    executable, runs one of two fixed scripts through it, decodes the JSON
    the query script prints and shows eight fields.  The embedding keeps
    the source's function names.  Python's builtins and the operating
    system ([int], [repr], [json.loads], [os.path.exists],
    [subprocess.run], ...) are not code of the program: they are the
    fields of two interfaces, [Python] and [Host], so every theorem holds
    for whatever they compute; a small reference instance at the end of
    the definitions is used to run the model on concrete inputs. *)

From Stdlib Require Import ZArith String Ascii List Bool Lia.
From stdpp Require Import gmap strings list pretty.

Set Warnings "-register-all".

Local Open Scope Z_scope.
Local Open Scope string_scope.

(** ** Python values *)

(** Truth value of a [str]: only the empty string is falsy. *)
Definition str_bool (s : string) : bool :=
  match s with
  | EmptyString => false
  | String _ _ => true
  end.

(** [x or d] on strings. *)
Definition str_or (x d : string) : string := if str_bool x then x else d.

(** [s.endswith(suffix)], by comparing the reversed character lists. *)
Fixpoint starts_with (p s : list ascii) : bool :=
  match p, s with
  | [], _ => true
  | a :: p', b :: s' => if Ascii.eqb a b then starts_with p' s' else false
  | _ :: _, [] => false
  end.

Definition ends_with (suffix s : string) : bool :=
  starts_with (rev (list_ascii_of_string suffix)) (rev (list_ascii_of_string s)).

(** [needle in s]. *)
Fixpoint contains_at (n : list ascii) (s : list ascii) : bool :=
  starts_with n s ||
  match s with
  | [] => false
  | _ :: s' => contains_at n s'
  end.

Definition contains (needle s : string) : bool :=
  contains_at (list_ascii_of_string needle) (list_ascii_of_string s).

(** What [json.loads] can return, which is also every value
    [obj.get(key, None)] can hand to the decoder.  [float] is Python's
    float type; a dict keeps its items in insertion order. *)
Inductive pyval (float : Type) : Type :=
| PNone
| PBool (b : bool)
| PInt (z : Z)
| PFloat (f : float)
| PStr (s : string)
| PList (l : list (pyval float))
| PDict (d : list (string * pyval float)).

Arguments PNone {float}.
Arguments PBool {float} b.
Arguments PInt {float} z.
Arguments PFloat {float} f.
Arguments PStr {float} s.
Arguments PList {float} l.
Arguments PDict {float} d.

(** The result of a call that may raise: [Raise msg] is an exception [e]
    with [str(e) = msg]. *)
Inductive raising (A : Type) : Type :=
| Return (a : A)
| Raise (msg : string).

Arguments Return {A} a.
Arguments Raise {A} msg.

(** The builtins whose results the program observes: [repr] of a float,
    [int] of a float ([None] stands for the [ValueError]/[OverflowError]
    on nan and infinities), [int] of a string ([None] stands for
    [ValueError]), [repr] of a string, [str.strip] and [json.loads]. *)
Class Python := {
  float : Type;
  float_repr : float -> string;
  float_int : float -> option Z;
  str_int : string -> option Z;
  str_repr : string -> string;
  str_strip : string -> string;
  json_loads : string -> raising (pyval float)
}.

Section PyValues.

Context {py : Python}.

Local Abbreviation value := (pyval float).

(** [int(v)]: [None] when it raises ([TypeError] on [None], lists and
    dicts, [ValueError]/[OverflowError] otherwise). *)
Definition py_int (v : value) : option Z :=
  match v with
  | PNone => None
  | PBool b => Some (if b then 1 else 0)
  | PInt z => Some z
  | PFloat f => float_int f
  | PStr s => str_int s
  | PList _ => None
  | PDict _ => None
  end.

(** [repr(v)] *)
Fixpoint py_repr (v : value) : string :=
  match v with
  | PNone => "None"
  | PBool b => if b then "True" else "False"
  | PInt z => pretty z
  | PFloat f => float_repr f
  | PStr s => str_repr s
  | PList l => "[" ++ String.concat ", " (map py_repr l) ++ "]"
  | PDict d =>
      "{" ++ String.concat ", "
               (map (fun kv => let '(k, x) := kv in
                               str_repr k ++ ": " ++ py_repr x) d) ++ "}"
  end.

(** [str(v)]: a string is its own text, everything else prints as its
    [repr]. *)
Definition py_str (v : value) : string :=
  match v with
  | PStr s => s
  | _ => py_repr v
  end.

(** [isinstance(v, dict)] *)
Definition is_dict (v : value) : bool :=
  match v with
  | PDict _ => true
  | _ => false
  end.

(** [key in d] and [d.get(key, None)] *)
Fixpoint dict_has (d : list (string * value)) (key : string) : bool :=
  match d with
  | [] => false
  | (k, _) :: d' => if String.eqb k key then true else dict_has d' key
  end.

Fixpoint dict_get (d : list (string * value)) (key : string) : value :=
  match d with
  | [] => PNone
  | (k, x) :: d' => if String.eqb k key then x else dict_get d' key
  end.

(** [decode_assessment_state], lines 92-108. The [except Exception]
    arm catches everything [int] can raise. *)
Definition decode_assessment_state (v : value) : string :=
  match py_int v with
  | None => py_str v
  | Some iv =>
      if (iv =? 1)%Z then "1 (Valid/Completed)"
      else if (iv =? 0)%Z then "0 (Not run/Unknown)"
      else pretty iv ++ " (Unknown meaning)"
  end.

End PyValues.

(** ** The interpreter resolver and the process invoker *)

(** How one call of [subprocess.run] ends. *)
Inductive run_outcome : Type :=
| Completed (returncode : Z) (stdout stderr : string)
| FileNotFoundError
| TimeoutExpired
| OtherError (msg : string).

(** The operating system as the two functions read it:
    [os.environ.get("SystemRoot")] without its default, [os.path.join],
    [os.path.exists], and [subprocess.run] as a function of the argument
    vector and the timeout. *)
Class Host := {
  environ_SystemRoot : option string;
  path_join : string -> list string -> string;
  path_exists : string -> bool;
  subprocess_run : list string -> Z -> run_outcome
}.

(** Calls of [subprocess.run] are recorded: a computation returns its
    value together with the argument vectors it started, in order. *)
Definition proc (A : Type) : Type := (A * list (list string * Z))%type.

Definition proc_ret {A} (a : A) : proc A := (a, []).

Definition proc_bind {A B} (m : proc A) (k : A -> proc B) : proc B :=
  let '(a, t1) := m in let '(b, t2) := k a in (b, t1 ++ t2)%list.

Section Invoker.

Context {py : Python} {host : Host}.

Definition spawn (cmd : list string) (timeout : Z) : proc run_outcome :=
  (subprocess_run cmd timeout, [(cmd, timeout)]).

(** [resolve_powershell_path], lines 12-31. *)
Definition resolve_powershell_path : string :=
  let system_root := default "C:\Windows" environ_SystemRoot in
  let ps_system32 :=
    path_join system_root ["System32"; "WindowsPowerShell"; "v1.0"; "powershell.exe"] in
  let ps_sysnative :=
    path_join system_root ["Sysnative"; "WindowsPowerShell"; "v1.0"; "powershell.exe"] in
  if path_exists ps_system32 then ps_system32
  else if path_exists ps_sysnative then ps_sysnative
  else "powershell".

(** [run_powershell], lines 34-63: the triple it returns, or the
    exception neither [except] clause catches. *)
Definition run_powershell (ps_script : string) (timeout_sec : Z)
  : proc (raising (Z * string * string)) :=
  let ps_exe := resolve_powershell_path in
  let cmd := [ps_exe; "-NoProfile"; "-ExecutionPolicy"; "Bypass"; "-Command"; ps_script] in
  proc_bind (spawn cmd timeout_sec) (fun p =>
  proc_ret
    match p with
    | Completed returncode stdout stderr =>
        Return (returncode, str_strip stdout, str_strip stderr)
    | FileNotFoundError =>
        Return (127, "", "PowerShell executable not found at: " ++ ps_exe)
    | TimeoutExpired =>
        Return (124, "", "PowerShell timed out after " ++ pretty timeout_sec ++ " seconds.")
    | OtherError msg => Raise msg
    end).

End Invoker.

(** ** The two fixed scripts *)

Definition LF : string := String (ascii_of_nat 10) EmptyString.
Definition DQ : string := String (ascii_of_nat 34) EmptyString.

(** [ps_query_winsat_json], lines 66-82. *)
Definition ps_query_winsat_json : string :=
  LF ++ "$ErrorActionPreference = " ++ DQ ++ "Stop" ++ DQ ++ LF ++
  "function Get-WinsatObj {" ++ LF ++
  "  try { return Get-CimInstance -ClassName Win32_WinSAT -Namespace root\cimv2 }" ++ LF ++
  "  catch { return Get-WmiObject -Class Win32_WinSAT -Namespace root\cimv2 }" ++ LF ++
  "}" ++ LF ++
  "$w = Get-WinsatObj" ++ LF ++
  "if (-not $w) { throw " ++ DQ ++
  "No Win32_WinSAT instance returned. WinSAT may not be available on this system." ++
  DQ ++ " }" ++ LF ++ LF ++
  "$wPicked = $w | Sort-Object -Property TimeTaken -Descending -ErrorAction SilentlyContinue | Select-Object -First 1" ++ LF ++ LF ++
  "$wPicked |" ++ LF ++
  "  Select-Object CPUScore, D3DScore, DiskScore, MemoryScore, GraphicsScore, WinSPRLevel, TimeTaken, WinSATAssessmentState |" ++ LF ++
  "  ConvertTo-Json -Depth 3" ++ LF.

(** [ps_run_winsat_assessment], lines 85-89. *)
Definition ps_run_winsat_assessment : string :=
  LF ++ "$ErrorActionPreference = " ++ DQ ++ "Stop" ++ DQ ++ LF ++
  "winsat formal | Out-String" ++ LF.

(** ** The window *)

Definition APP_TITLE : string := "WinSAT (Win32_WinSAT) Viewer — Windows 10".

Inductive button : Type := refresh_btn | run_btn | copy_btn.

(** The three thread targets: [worker] of [refresh_scores], [worker] of
    [run_assessment], and [_refresh_after_assessment]. *)
Inductive job : Type := refresh_worker | assessment_worker | refresh_after_assessment.

(** One effect of a method on the window, in the order the source performs
    them. *)
Inductive action : Type :=
| StatusSet (s : string)                 (* self.status_var.set(s) *)
| ButtonState (b : button) (normal : bool) (* b.configure(state="normal"/"disabled") *)
| CursorSet (c : string)                 (* self.configure(cursor=c) *)
| TextInsert (s : string)                (* self.text.insert("end", s) *)
| TextDelete                             (* self.text.delete("1.0", "end") *)
| FieldSet (ui_label v : string)         (* self.fields[ui_label].set(v) *)
| RawJsonSet (s : string)                (* self.raw_json = s *)
| ShowError (title msg : string)         (* messagebox.showerror *)
| ShowInfo (title msg : string)          (* messagebox.showinfo *)
| ClipboardClear
| ClipboardAppend (s : string)
| ThreadStart (j : job).                 (* threading.Thread(target=j).start() *)

(** The attributes of [WinSatGUI] the methods read or write, with two
    records of what happened: the message boxes shown so far and the
    background threads that were started and whose callback has not run
    yet. [startup_timer] is the pending [self.after(200, self.refresh_scores)]. *)
Record gui : Type := mkGui {
  raw_json : option string;
  status_var : string;
  refresh_normal : bool;
  run_normal : bool;
  copy_normal : bool;
  cursor : string;
  text : string;
  fields : gmap string string;
  clipboard : string;
  shown : list action;
  threads : list job;
  startup_timer : bool
}.

Definition button_normal (g : gui) (b : button) : bool :=
  match b with
  | refresh_btn => refresh_normal g
  | run_btn => run_normal g
  | copy_btn => copy_normal g
  end.

Definition set_button (b : button) (normal : bool) (g : gui) : gui :=
  match b with
  | refresh_btn =>
      mkGui (raw_json g) (status_var g) normal (run_normal g) (copy_normal g) (cursor g)
            (text g) (fields g) (clipboard g) (shown g) (threads g) (startup_timer g)
  | run_btn =>
      mkGui (raw_json g) (status_var g) (refresh_normal g) normal (copy_normal g) (cursor g)
            (text g) (fields g) (clipboard g) (shown g) (threads g) (startup_timer g)
  | copy_btn =>
      mkGui (raw_json g) (status_var g) (refresh_normal g) (run_normal g) normal (cursor g)
            (text g) (fields g) (clipboard g) (shown g) (threads g) (startup_timer g)
  end.

Definition perform (g : gui) (a : action) : gui :=
  match a with
  | StatusSet s =>
      mkGui (raw_json g) s (refresh_normal g) (run_normal g) (copy_normal g) (cursor g)
            (text g) (fields g) (clipboard g) (shown g) (threads g) (startup_timer g)
  | ButtonState b normal => set_button b normal g
  | CursorSet c =>
      mkGui (raw_json g) (status_var g) (refresh_normal g) (run_normal g) (copy_normal g) c
            (text g) (fields g) (clipboard g) (shown g) (threads g) (startup_timer g)
  | TextInsert s =>
      mkGui (raw_json g) (status_var g) (refresh_normal g) (run_normal g) (copy_normal g)
            (cursor g) (text g ++ s) (fields g) (clipboard g) (shown g) (threads g)
            (startup_timer g)
  | TextDelete =>
      mkGui (raw_json g) (status_var g) (refresh_normal g) (run_normal g) (copy_normal g)
            (cursor g) "" (fields g) (clipboard g) (shown g) (threads g) (startup_timer g)
  | FieldSet ui_label v =>
      mkGui (raw_json g) (status_var g) (refresh_normal g) (run_normal g) (copy_normal g)
            (cursor g) (text g) (<[ui_label := v]> (fields g)) (clipboard g) (shown g)
            (threads g) (startup_timer g)
  | RawJsonSet s =>
      mkGui (Some s) (status_var g) (refresh_normal g) (run_normal g) (copy_normal g)
            (cursor g) (text g) (fields g) (clipboard g) (shown g) (threads g)
            (startup_timer g)
  | ShowError _ _ | ShowInfo _ _ =>
      mkGui (raw_json g) (status_var g) (refresh_normal g) (run_normal g) (copy_normal g)
            (cursor g) (text g) (fields g) (clipboard g) (shown g ++ [a]) (threads g)
            (startup_timer g)
  | ClipboardClear =>
      mkGui (raw_json g) (status_var g) (refresh_normal g) (run_normal g) (copy_normal g)
            (cursor g) (text g) (fields g) "" (shown g) (threads g) (startup_timer g)
  | ClipboardAppend s =>
      mkGui (raw_json g) (status_var g) (refresh_normal g) (run_normal g) (copy_normal g)
            (cursor g) (text g) (fields g) (clipboard g ++ s) (shown g) (threads g)
            (startup_timer g)
  | ThreadStart j =>
      mkGui (raw_json g) (status_var g) (refresh_normal g) (run_normal g) (copy_normal g)
            (cursor g) (text g) (fields g) (clipboard g) (shown g) (threads g ++ [j])
            (startup_timer g)
  end.

(** Running a method: its effects, left to right. *)
Definition exec (acts : list action) (g : gui) : gui := fold_left perform acts g.

(** The application state of the specification: [Busy] is the three
    buttons disabled, [Ready] is the three buttons enabled. *)
Definition busy (g : gui) : bool :=
  negb (refresh_normal g) && negb (run_normal g) && negb (copy_normal g).

Definition ready (g : gui) : bool :=
  refresh_normal g && run_normal g && copy_normal g.

(** ** The methods of [WinSatGUI] *)

(** [_set_busy], lines 186-198. *)
Definition _set_busy (busy : bool) (msg : string) : list action :=
  if busy then
    [StatusSet (str_or msg "Working…");
     ButtonState refresh_btn false;
     ButtonState run_btn false;
     ButtonState copy_btn false;
     CursorSet "watch"]
  else
    [StatusSet (str_or msg "Ready.");
     ButtonState refresh_btn true;
     ButtonState run_btn true;
     ButtonState copy_btn true;
     CursorSet ""].

(** [_log] and [_clear_log], lines 200-209 (the widget is made writable
    and read-only again around the change, and scrolled to its end). *)
Definition _log (s : string) : list action := [TextInsert (s ++ LF)].

Definition _clear_log : list action := [TextDelete].

(** The [mapping] of [_apply_scores], in the order of its [items()]. *)
Definition mapping : list (string * string) :=
  [("WinSPRLevel (Base Score)", "WinSPRLevel");
   ("CPUScore", "CPUScore");
   ("MemoryScore", "MemoryScore");
   ("DiskScore", "DiskScore");
   ("GraphicsScore", "GraphicsScore");
   ("D3DScore", "D3DScore");
   ("WinSATAssessmentState", "WinSATAssessmentState");
   ("TimeTaken", "TimeTaken")].

(** The literal of [self.fields] in [_build_ui], lines 158-167: each
    label with the text its [StringVar] starts with. *)
Definition build_ui_fields : list (string * string) :=
  [("WinSPRLevel (Base Score)", "-");
   ("CPUScore", "-");
   ("MemoryScore", "-");
   ("DiskScore", "-");
   ("GraphicsScore", "-");
   ("D3DScore", "-");
   ("WinSATAssessmentState", "-");
   ("TimeTaken", "-")].

(** [self.fields] as [_build_ui] creates it. [self.fields[ui_label]]
    raises [KeyError] for a label that is not in this dict; the labels
    [_apply_scores] looks up are those of its own [mapping], and each of
    them is one of these eight ([mapping_labels_built] below), so no
    [FieldSet] of the program meets a missing row. *)
Definition initial_fields : gmap string string := list_to_map build_ui_fields.

Section Methods.

Context {py : Python}.

Local Abbreviation value := (pyval float).

(** The text one row of [_apply_scores] shows, lines 223-230. *)
Definition shown_value (key : string) (obj : list (string * value)) : string :=
  match dict_get obj key with
  | PNone => "-"
  | val =>
      if String.eqb key "WinSATAssessmentState"
      then decode_assessment_state val
      else py_str val
  end.

(** [_apply_scores], lines 211-230. *)
Definition _apply_scores (obj : list (string * value)) : list action :=
  map (fun lk => let '(ui_label, key) := lk in FieldSet ui_label (shown_value key obj))
      mapping.

(** [copy_json], lines 232-238; [not self.raw_json] holds for [None] and
    for the empty string. *)
Definition copy_json (g : gui) : list action :=
  match raw_json g with
  | Some (String c r) =>
      [ClipboardClear;
       ClipboardAppend (String c r);
       StatusSet "JSON copied to clipboard."]
  | _ => [ShowInfo APP_TITLE "No JSON available yet. Click Refresh first."]
  end.

(** What each thread does to the window before it calls [run_powershell]
    (lines 242-243 and 286-288), the script and timeout it passes. The
    thread is the last statement of the method that starts it, so its
    first steps are sequenced right after the start. *)
Definition thread_prologue (j : job) : list action :=
  match j with
  | refresh_worker =>
      _clear_log ++ _log "Querying Win32_WinSAT via PowerShell…"
  | assessment_worker =>
      _clear_log ++ _log "Running: winsat formal …" ++
      _log ("Note: this can take a while and may require Administrator privileges." ++ LF)
  | refresh_after_assessment => []
  end.

Definition thread_script (j : job) : string * Z :=
  match j with
  | refresh_worker => (ps_query_winsat_json, 30)
  | assessment_worker => (ps_run_winsat_assessment, 600)
  | refresh_after_assessment => (ps_query_winsat_json, 30)
  end.

Definition start_thread (j : job) : list action := ThreadStart j :: thread_prologue j.

(** The call of [run_powershell] the thread makes (lines 244, 289 and
    322); the triple it returns is what the thread posts back. *)
Definition thread_invocation {host : Host} (j : job)
  : proc (raising (Z * string * string)) :=
  run_powershell (fst (thread_script j)) (snd (thread_script j)).

(** [refresh_scores], lines 240-248. *)
Definition refresh_scores : list action :=
  _set_busy true "Querying Win32_WinSAT…" ++ start_thread refresh_worker.

(** The [except Exception as e] arm of [_handle_query_result]. *)
Definition handle_exception (e : string) : list action :=
  _log ("[ERROR] " ++ e) ++
  [ShowError APP_TITLE ("Could not parse/display results:" ++ LF ++ e)].

(** Lines 271-272: [if isinstance(obj, list) and obj: obj = obj[0]]. *)
Definition first_of_list (obj : value) : value :=
  match obj with
  | PList (first :: _) => first
  | _ => obj
  end.

(** Lines 270-277: decode, keep the first element of a non-empty list,
    insist on a dict, show it. *)
Definition parse_and_apply (out : string) : list action :=
  match json_loads out with
  | Raise e => handle_exception e
  | Return obj =>
      match first_of_list obj with
      | PDict d => _apply_scores d ++ [StatusSet "WinSAT scores updated."]
      | _ => handle_exception "Unexpected JSON structure (not an object)."
      end
  end.

(** [_handle_query_result], lines 250-282; the last line is the
    [finally] clause, which every path goes through. *)
Definition _handle_query_result (rc : Z) (out err : string) : list action :=
  (if negb (rc =? 0)%Z then
     _log ("[ERROR] PowerShell exit code: " ++ pretty rc) ++
     (if str_bool err then _log err else []) ++
     (if str_bool out then _log out else []) ++
     [ShowError APP_TITLE ("Failed to query Win32_WinSAT." ++ LF ++ "See log for details.")]
   else if negb (str_bool out) then
     _log "[ERROR] Empty output." ++
     [ShowError APP_TITLE "PowerShell returned no output."]
   else
     [RawJsonSet out] ++ _log "Raw JSON:" ++ _log out ++ parse_and_apply out)
  ++ _set_busy false "".

(** [done] inside [run_assessment], lines 291-314. *)
Definition run_assessment_done (rc : Z) (out err : string) : list action :=
  if negb (rc =? 0)%Z then
    _log ("[ERROR] WinSAT exit code: " ++ pretty rc) ++
    (if str_bool err then _log err else []) ++
    (if str_bool out then _log out else []) ++
    [ShowError APP_TITLE
       ("WinSAT assessment failed." ++ LF ++
        "Try running this program from an elevated (Admin) terminal." ++ LF ++
        "See log for details.")] ++
    _set_busy false "Ready."
  else
    (if str_bool out then _log "WinSAT output:" ++ _log out else []) ++
    (if str_bool err then _log "WinSAT stderr:" ++ _log err else []) ++
    _log (LF ++ "Re-querying Win32_WinSAT…" ++ LF) ++
    _set_busy true "Re-querying Win32_WinSAT…" ++
    start_thread refresh_after_assessment.

(** [run_assessment], lines 284-319. *)
Definition run_assessment : list action :=
  _set_busy true "Running WinSAT formal…" ++ start_thread assessment_worker.

(** The callback a thread posts with [self.after(0, ...)] once
    [run_powershell] has returned [(rc, out, err)]. *)
Definition thread_callback (j : job) (rc : Z) (out err : string) : list action :=
  match j with
  | refresh_worker => _handle_query_result rc out err
  | assessment_worker => run_assessment_done rc out err
  | refresh_after_assessment => _handle_query_result rc out err
  end.

(** ** The event loop *)

(** What the Tk main loop can deliver: a click on one of the three
    buttons, the startup timer of [__init__], and the callback of a
    background thread with the triple its [run_powershell] returned. *)
Inductive event : Type :=
| Click (b : button)
| StartupTimer
| Callback (j : job) (rc : Z) (out err : string).

Definition command (b : button) (g : gui) : list action :=
  match b with
  | refresh_btn => refresh_scores
  | run_btn => run_assessment
  | copy_btn => copy_json g
  end.

Definition job_eqb (j k : job) : bool :=
  match j, k with
  | refresh_worker, refresh_worker
  | assessment_worker, assessment_worker
  | refresh_after_assessment, refresh_after_assessment => true
  | _, _ => false
  end.

(** The thread whose callback runs has finished: one occurrence leaves
    the threads in flight. *)
Fixpoint remove_job (j : job) (l : list job) : list job :=
  match l with
  | [] => []
  | k :: l' => if job_eqb j k then l' else k :: remove_job j l'
  end.

Definition with_threads (l : list job) (g : gui) : gui :=
  mkGui (raw_json g) (status_var g) (refresh_normal g) (run_normal g) (copy_normal g)
        (cursor g) (text g) (fields g) (clipboard g) (shown g) l (startup_timer g).

Definition with_startup_timer (t : bool) (g : gui) : gui :=
  mkGui (raw_json g) (status_var g) (refresh_normal g) (run_normal g) (copy_normal g)
        (cursor g) (text g) (fields g) (clipboard g) (shown g) (threads g) t.

(** One event. A disabled ttk button does not invoke its command; the
    timer calls [refresh_scores] directly; a callback belongs to a thread
    that was started and has now finished. *)
Definition step (g : gui) (e : event) : gui :=
  match e with
  | Click b =>
      if button_normal g b then exec (command b g) g else g
  | StartupTimer =>
      if startup_timer g then exec refresh_scores (with_startup_timer false g) else g
  | Callback j rc out err =>
      if existsb (job_eqb j) (threads g)
      then exec (thread_callback j rc out err) (with_threads (remove_job j (threads g)) g)
      else g
  end.

Definition run (g : gui) (es : list event) : gui := fold_left step es g.

(** [__init__], lines 112-123: the window as [_build_ui] leaves it, then
    [_set_busy(False)], then the timer. *)
Definition built_ui : gui :=
  mkGui None "Ready." true true true "" "" initial_fields "" [] [] false.

Definition init : gui := with_startup_timer true (exec (_set_busy false "") built_ui).

End Methods.

(** ** Observations

    The vocabulary of the specification, read off the effects. *)

(** The two ways the result interpreter fails, told apart by the notice
    the handler shows. *)
Inductive failure : Type :=
| EmptyOutput
| ParseError (e : string).

Definition failure_notice (f : failure) : action :=
  match f with
  | EmptyOutput => ShowError APP_TITLE "PowerShell returned no output."
  | ParseError e => ShowError APP_TITLE ("Could not parse/display results:" ++ LF ++ e)
  end.

Definition is_field_set (a : action) : bool :=
  match a with FieldSet _ _ => true | _ => false end.

Definition is_thread_start (a : action) : bool :=
  match a with ThreadStart _ => true | _ => false end.

Definition is_button_state (a : action) : bool :=
  match a with ButtonState _ _ => true | _ => false end.

Definition is_enable (a : action) : bool :=
  match a with ButtonState _ true => true | _ => false end.

Definition is_raw_json_set (a : action) : bool :=
  match a with RawJsonSet _ => true | _ => false end.

Definition is_text_insert (a : action) : bool :=
  match a with TextInsert _ => true | _ => false end.

Definition is_notice (a : action) : bool :=
  match a with ShowError _ _ | ShowInfo _ _ => true | _ => false end.

(** A score record is produced when the fields of the window are written. *)
Definition displays_scores (acts : list action) : bool := existsb is_field_set acts.

(** The threads a method starts, in order. *)
Definition started (acts : list action) : list job :=
  flat_map (fun a => match a with ThreadStart j => [j] | _ => [] end) acts.

(** The threads that were started and whose callback has not run. Every
    invocation in flight belongs to one of them; a thread whose
    [run_powershell] raised has ended without a callback and is still
    counted, so this bounds the invocations in flight from above, and
    equals their number as long as no invocation has raised. *)
Definition in_flight (g : gui) : nat := length (threads g).

(** The gate the buttons implement: no timer pending, and either the
    window is ready with nothing in flight or it is busy with exactly one
    thread in flight. *)
Definition gated (g : gui) : Prop :=
  startup_timer g = false /\
  ((ready g = true /\ threads g = []) \/
   (busy g = true /\ exists j, threads g = [j])).

(** ** The threads and the window, component by component *)

Definition is_text_delete (a : action) : bool :=
  match a with TextDelete => true | _ => false end.

Definition is_cursor_set (a : action) : bool :=
  match a with CursorSet _ => true | _ => false end.

Definition is_status_set (a : action) : bool :=
  match a with StatusSet _ => true | _ => false end.

Definition is_clipboard (a : action) : bool :=
  match a with ClipboardClear | ClipboardAppend _ => true | _ => false end.

(** The text of the log pane after a method, given the text before it. *)
Definition log_text (acts : list action) (t : string) : string :=
  fold_left (fun t a =>
               match a with
               | TextInsert s => t ++ s
               | TextDelete => ""
               | _ => t
               end) acts t.

(** The rows after a method, given the rows before it. *)
Definition set_rows (acts : list action) (m : gmap string string) : gmap string string :=
  fold_left (fun m a =>
               match a with
               | FieldSet ui_label v => <[ui_label := v]> m
               | _ => m
               end) acts m.

(** The notices a method shows, in order. *)
Definition notices (acts : list action) : list action := filter is_notice acts.

(** The window shows the eight rows of [_build_ui] and no other. *)
Definition eight_rows (g : gui) : Prop :=
  forall ui_label,
    is_Some (fields g !! ui_label) <-> In ui_label (map fst build_ui_fields).

(** The buttons and the cursor agree: all enabled under the default
    cursor, or all disabled under the watch cursor. *)
Definition buttons_match_cursor (g : gui) : Prop :=
  (ready g = true /\ cursor g = "") \/ (busy g = true /\ cursor g = "watch").

Definition is_callback (e : event) : bool :=
  match e with Callback _ _ _ _ => true | _ => false end.

Section Workers.

Context {py : Python} {host : Host}.

(** What a thread hands to the main loop, lines 244-245, 289 and 316,
    322-323: the callback with the triple [run_powershell] returned, or
    nothing when [run_powershell] raised, since the thread then ends
    before it reaches [self.after]. *)
Definition thread_posts (j : job) : option event :=
  match fst (thread_invocation j) with
  | Return (rc, out, err) => Some (Callback j rc out err)
  | Raise _ => None
  end.

(** The argument vector [run_powershell] passes for a script. *)
Definition argv (ps_script : string) : list string :=
  [resolve_powershell_path; "-NoProfile"; "-ExecutionPolicy"; "Bypass"; "-Command";
   ps_script].

End Workers.

(** ** A reference instance

    CPython's behaviour on ASCII data without floats, enough to run the
    model on sample inputs: [int] and [repr] of a string, [str.strip],
    and [json.loads] after [JSONDecoder.decode] and the scanner of
    [Modules/_json.c].  A JSON number with a fraction or an exponent, the
    constants [NaN] and [Infinity], and a [\u] escape are outside the
    fragment (the decoder reports them as such, where CPython returns a
    float or a character), as is the interpreter's limit on the length of
    an integer literal. *)

Module Reference.

(** White space for [str.strip]: tab to carriage return, the four
    separators 28 to 31 and the space. *)
Definition is_space (c : ascii) : bool :=
  let n := nat_of_ascii c in
  ((9 <=? n)%nat && (n <=? 13)%nat) || ((28 <=? n)%nat && (n <=? 32)%nat).

(** White space for [int] of an ASCII string: tab to carriage return and
    the space. *)
Definition is_int_space (c : ascii) : bool :=
  let n := nat_of_ascii c in
  ((9 <=? n)%nat && (n <=? 13)%nat) || (n =? 32)%nat.

Definition is_digit (c : ascii) : bool :=
  let n := nat_of_ascii c in (48 <=? n)%nat && (n <=? 57)%nat.

Definition digit_value (c : ascii) : Z := Z.of_nat (nat_of_ascii c) - 48.

Fixpoint lstrip (s : list ascii) : list ascii :=
  match s with
  | c :: s' => if is_space c then lstrip s' else s
  | [] => []
  end.

Definition strip_chars (s : list ascii) : list ascii := rev (lstrip (rev (lstrip s))).

Definition strip (s : string) : string :=
  string_of_list_ascii (strip_chars (list_ascii_of_string s)).

(** Decimal digits with single underscores between them. *)
Fixpoint digits (acc : Z) (after_digit : bool) (s : list ascii) : option Z :=
  match s with
  | [] => if after_digit then Some acc else None
  | c :: s' =>
      if is_digit c then digits (10 * acc + digit_value c) true s'
      else if Ascii.eqb c "_" then (if after_digit then digits acc false s' else None)
      else None
  end.

Fixpoint int_lstrip (s : list ascii) : list ascii :=
  match s with
  | c :: s' => if is_int_space c then int_lstrip s' else s
  | [] => []
  end.

(** [int(s)] for a string. *)
Definition int_of_str (s : string) : option Z :=
  match rev (int_lstrip (rev (int_lstrip (list_ascii_of_string s)))) with
  | "-"%char :: s' => Z.opp <$> digits 0 false s'
  | "+"%char :: s' => digits 0 false s'
  | s' => digits 0 false s'
  end.

Definition hex_digit (n : nat) : ascii :=
  ascii_of_nat (if (n <? 10)%nat then 48 + n else 87 + n).

(** [repr(s)] for a string. *)
Definition repr_char (quote c : ascii) : list ascii :=
  let n := nat_of_ascii c in
  if Ascii.eqb c quote || Ascii.eqb c "\" then ["\"%char; c]
  else if (n =? 9)%nat then ["\"; "t"]%char
  else if (n =? 10)%nat then ["\"; "n"]%char
  else if (n =? 13)%nat then ["\"; "r"]%char
  else if (n <? 32)%nat || (n =? 127)%nat
       then ["\"%char; "x"%char; hex_digit (n / 16); hex_digit (n mod 16)]
  else [c].

Definition repr_of_str (s : string) : string :=
  let cs := list_ascii_of_string s in
  let quote :=
    if existsb (Ascii.eqb "'") cs && negb (existsb (Ascii.eqb (ascii_of_nat 34)) cs)
    then ascii_of_nat 34 else "'"%char in
  string_of_list_ascii (quote :: flat_map (repr_char quote) cs ++ [quote]).

(** *** [json.loads] *)

Local Abbreviation value := (pyval Empty_set).

(** A scanner returns a value with the rest of the document and the
    offset it stopped at, or the message and offset of a
    [JSONDecodeError], or reports that the fragment was left. *)
Inductive scan (A : Type) : Type :=
| Scanned (a : A) (rest : list ascii) (pos : nat)
| Failed (msg : string) (pos : nat)
| Outside.

Arguments Scanned {A} a rest pos.
Arguments Failed {A} msg pos.
Arguments Outside {A}.

Definition json_ws (c : ascii) : bool :=
  let n := nat_of_ascii c in
  (n =? 32)%nat || (n =? 9)%nat || (n =? 10)%nat || (n =? 13)%nat.

Fixpoint skip_ws (s : list ascii) (pos : nat) : list ascii * nat :=
  match s with
  | c :: s' => if json_ws c then skip_ws s' (S pos) else (s, pos)
  | [] => ([], pos)
  end.

(** [scanstring_unicode] from the character after the opening quote,
    which stands at offset [begin]. *)
Fixpoint scanstring (acc : list ascii) (begin : nat) (s : list ascii) (pos : nat)
  : scan string :=
  match s with
  | [] => Failed "Unterminated string starting at" begin
  | c :: s' =>
      if Ascii.eqb c (ascii_of_nat 34) then
        Scanned (string_of_list_ascii (rev acc)) s' (S pos)
      else if Ascii.eqb c "\" then
        match s' with
        | [] => Failed "Unterminated string starting at" begin
        | esc :: s'' =>
            let unescaped (x : ascii) := scanstring (x :: acc) begin s'' (S (S pos)) in
            if Ascii.eqb esc "u" then Outside
            else if Ascii.eqb esc (ascii_of_nat 34) then unescaped esc
            else if Ascii.eqb esc "\" then unescaped esc
            else if Ascii.eqb esc "/" then unescaped esc
            else if Ascii.eqb esc "b" then unescaped (ascii_of_nat 8)
            else if Ascii.eqb esc "f" then unescaped (ascii_of_nat 12)
            else if Ascii.eqb esc "n" then unescaped (ascii_of_nat 10)
            else if Ascii.eqb esc "r" then unescaped (ascii_of_nat 13)
            else if Ascii.eqb esc "t" then unescaped (ascii_of_nat 9)
            else Failed "Invalid \escape" pos
        end
      else if (nat_of_ascii c <? 32)%nat then
        Failed "Invalid control character at" pos
      else scanstring (c :: acc) begin s' (S pos)
  end.

Fixpoint take_digits (s : list ascii) : list ascii * list ascii :=
  match s with
  | c :: s' =>
      if is_digit c then let '(d, r) := take_digits s' in (c :: d, r) else ([], s)
  | [] => ([], [])
  end.

Definition digits_value (d : list ascii) : Z :=
  fold_left (fun acc c => 10 * acc + digit_value c) d 0.

(** The integer part of [NUMBER_RE]: [0] or a digit sequence that does
    not start with [0]. *)
Definition int_part (s : list ascii) : option (list ascii * list ascii) :=
  match s with
  | "0"%char :: r => Some (["0"%char], r)
  | c :: _ => if is_digit c then Some (take_digits s) else None
  | [] => None
  end.

(** Whether [NUMBER_RE] goes on with a fraction or an exponent. *)
Definition float_tail (r : list ascii) : bool :=
  match r with
  | "."%char :: c :: _ => is_digit c
  | e :: r' =>
      (Ascii.eqb e "e" || Ascii.eqb e "E") &&
      match r' with
      | c :: r'' =>
          if Ascii.eqb c "-" || Ascii.eqb c "+"
          then match r'' with c' :: _ => is_digit c' | [] => false end
          else is_digit c
      | [] => false
      end
  | [] => false
  end.

Definition scan_number (s : list ascii) (pos : nat) : scan value :=
  let '(neg, body) :=
    match s with
    | "-"%char :: r => (true, r)
    | _ => (false, s)
    end in
  match int_part body with
  | None =>
      if starts_with (list_ascii_of_string "NaN") s
         || starts_with (list_ascii_of_string "Infinity") s
         || starts_with (list_ascii_of_string "-Infinity") s
      then Outside
      else Failed "Expecting value" pos
  | Some (d, r) =>
      if float_tail r then Outside
      else
        let n := digits_value d in
        Scanned (PInt (if neg then - n else n)) r
                (pos + (if neg then 1 else 0) + length d)%nat
  end.

(** [dict(pairs)]: a repeated key keeps its first position and takes the
    last value. *)
Fixpoint dict_set (d : list (string * value)) (k : string) (x : value)
  : list (string * value) :=
  match d with
  | [] => [(k, x)]
  | (k', x') :: d' =>
      if String.eqb k' k then (k', x) :: d' else (k', x') :: dict_set d' k x
  end.

Definition literal (word : string) (v : value) (s : list ascii) (pos : nat)
  : scan value :=
  let w := list_ascii_of_string word in
  if starts_with w s then Scanned v (skipn (length w) s) (pos + length w)%nat
  else Failed "Expecting value" pos.

(** [scan_once], [JSONArray] and [JSONObject]; the first argument bounds
    the number of nested calls. *)
Fixpoint scan_once (fuel : nat) (s : list ascii) (pos : nat) : scan value :=
  match fuel with
  | O => Outside
  | S fuel' =>
      match s with
      | [] => Failed "Expecting value" pos
      | c :: s' =>
          if Ascii.eqb c (ascii_of_nat 34) then
            match scanstring [] pos s' (S pos) with
            | Scanned str r p => Scanned (PStr str) r p
            | Failed m p => Failed m p
            | Outside => Outside
            end
          else if Ascii.eqb c "{" then
            let '(r, p) := skip_ws s' (S pos) in
            match r with
            | "}"%char :: r' => Scanned (PDict []) r' (S p)
            | _ => scan_members fuel' [] r p
            end
          else if Ascii.eqb c "[" then
            let '(r, p) := skip_ws s' (S pos) in
            match r with
            | "]"%char :: r' => Scanned (PList []) r' (S p)
            | _ => scan_items fuel' [] r p
            end
          else if Ascii.eqb c "n" then literal "null" PNone s pos
          else if Ascii.eqb c "t" then literal "true" (PBool true) s pos
          else if Ascii.eqb c "f" then literal "false" (PBool false) s pos
          else scan_number s pos
      end
  end

with scan_items (fuel : nat) (acc : list value) (s : list ascii) (pos : nat)
  : scan value :=
  match fuel with
  | O => Outside
  | S fuel' =>
      match scan_once fuel' s pos with
      | Scanned v r p =>
          let '(r1, p1) := skip_ws r p in
          match r1 with
          | "]"%char :: r2 => Scanned (PList (rev (v :: acc))) r2 (S p1)
          | ","%char :: r2 =>
              let '(r3, p3) := skip_ws r2 (S p1) in
              scan_items fuel' (v :: acc) r3 p3
          | _ => Failed "Expecting ',' delimiter" p1
          end
      | Failed m p => Failed m p
      | Outside => Outside
      end
  end

with scan_members (fuel : nat) (acc : list (string * value)) (s : list ascii) (pos : nat)
  : scan value :=
  match fuel with
  | O => Outside
  | S fuel' =>
      match s with
      | c :: s' =>
          if Ascii.eqb c (ascii_of_nat 34) then
            match scanstring [] pos s' (S pos) with
            | Scanned key r p =>
                let '(r1, p1) := skip_ws r p in
                match r1 with
                | ":"%char :: r2 =>
                    let '(r3, p3) := skip_ws r2 (S p1) in
                    match scan_once fuel' r3 p3 with
                    | Scanned v r4 p4 =>
                        let '(r5, p5) := skip_ws r4 p4 in
                        match r5 with
                        | "}"%char :: r6 => Scanned (PDict (dict_set acc key v)) r6 (S p5)
                        | ","%char :: r6 =>
                            let '(r7, p7) := skip_ws r6 (S p5) in
                            scan_members fuel' (dict_set acc key v) r7 p7
                        | _ => Failed "Expecting ',' delimiter" p5
                        end
                    | Failed m p' => Failed m p'
                    | Outside => Outside
                    end
                | _ => Failed "Expecting ':' delimiter" p1
                end
            | Failed m p => Failed m p
            | Outside => Outside
            end
          else Failed "Expecting property name enclosed in double quotes" pos
      | [] => Failed "Expecting property name enclosed in double quotes" pos
      end
  end.

(** [str(JSONDecodeError(msg, doc, pos))] *)
Definition errmsg (msg : string) (doc : list ascii) (pos : nat) : string :=
  let before := firstn pos doc in
  let lineno := S (length (filter (fun c => Ascii.eqb c (ascii_of_nat 10)) before)) in
  let fix after_last_lf (col : nat) (l : list ascii) : nat :=
    match l with
    | [] => col
    | c :: l' =>
        if Ascii.eqb c (ascii_of_nat 10) then after_last_lf 0%nat l'
        else after_last_lf (S col) l'
    end in
  msg ++ ": line " ++ pretty lineno ++ " column " ++ pretty (S (after_last_lf 0%nat before))
      ++ " (char " ++ pretty pos ++ ")".

(** [json.loads(s)] *)
Definition loads (s : string) : raising value :=
  let doc := list_ascii_of_string s in
  let '(r, p) := skip_ws doc 0 in
  match scan_once (2 * length doc + 2) r p with
  | Scanned v r1 p1 =>
      let '(r2, p2) := skip_ws r1 p1 in
      match r2 with
      | [] => Return v
      | _ :: _ => Raise (errmsg "Extra data" doc p2)
      end
  | Failed m p1 => Raise (errmsg m doc p1)
  | Outside => Raise "outside the reference fragment"
  end.

(** [ntpath.join] for a root that has at most a drive letter in front
    and components that are plain names. *)
Definition needs_sep (acc : string) : bool :=
  match rev (list_ascii_of_string acc) with
  | [] => false
  | last :: before =>
      negb (Ascii.eqb last "\" || Ascii.eqb last "/") &&
      negb (Ascii.eqb last ":" && (length before =? 1)%nat)
  end.

Definition join (root : string) (parts : list string) : string :=
  fold_left (fun acc p => if needs_sep acc then acc ++ "\" ++ p else acc ++ p) parts root.

(** A machine: its [SystemRoot], the files that exist, how long a
    PowerShell run takes there and what it prints. A command that is not
    an existing file is not found (nothing is on the search path). *)
Definition run_on (files : list string) (seconds : Z) (rc : Z) (stdout stderr : string)
  (cmd : list string) (timeout : Z) : run_outcome :=
  match cmd with
  | exe :: _ =>
      if existsb (String.eqb exe) files then
        if (timeout <? seconds)%Z then TimeoutExpired else Completed rc stdout stderr
      else FileNotFoundError
  | [] => OtherError "list index out of range"
  end.

End Reference.

Definition cpython : Python := {|
  float := Empty_set;
  float_repr := fun f => match f with end;
  float_int := fun f => match f with end;
  str_int := Reference.int_of_str;
  str_repr := Reference.repr_of_str;
  str_strip := Reference.strip;
  json_loads := Reference.loads
|}.

Definition machine (root : option string) (files : list string)
  (seconds rc : Z) (stdout stderr : string) : Host := {|
  environ_SystemRoot := root;
  path_join := Reference.join;
  path_exists := fun p => existsb (String.eqb p) files;
  subprocess_run := Reference.run_on files seconds rc stdout stderr
|}.

Definition powershell64 : string :=
  "C:\Windows\System32\WindowsPowerShell\v1.0\powershell.exe".

Definition powershell_sysnative : string :=
  "D:\WinNT\Sysnative\WindowsPowerShell\v1.0\powershell.exe".

(** ** Samples *)

(** Three machines: a 64-bit Windows where a PowerShell run takes 31
    seconds, a 32-bit Python on [D:\WinNT] that only sees Sysnative, and
    one without PowerShell. *)
Definition slow_machine : Host := machine None [powershell64] 31 0 "{}" "".

Definition sysnative_machine : Host :=
  machine (Some "D:\WinNT") [powershell_sysnative] 2 0 " {} " "".

Definition bare_machine : Host := machine (Some "D:\WinNT") [] 2 0 "" "".

(** [{"CPUScore": null, "WinSATAssessmentState": 1}] and what it decodes to. *)
Definition null_score_json : string :=
  "{" ++ DQ ++ "CPUScore" ++ DQ ++ ": null, " ++
         DQ ++ "WinSATAssessmentState" ++ DQ ++ ": 1}".

Definition null_score : list (string * pyval Empty_set) :=
  [("CPUScore", PNone); ("WinSATAssessmentState", PInt 1)].

(** [{"CPUScore": 0, "TimeTaken": "noon", "WinSATAssessmentState": "abc"}] *)
Definition zero_score : list (string * pyval Empty_set) :=
  [("CPUScore", PInt 0); ("TimeTaken", PStr "noon"); ("WinSATAssessmentState", PStr "abc")].

(** [[{"CPUScore": 7}, {"CPUScore": 3}]] and its first element. *)
Definition two_records_json : string :=
  "[{" ++ DQ ++ "CPUScore" ++ DQ ++ ": 7}, {" ++ DQ ++ "CPUScore" ++ DQ ++ ": 3}]".

Definition first_record_json : string := "{" ++ DQ ++ "CPUScore" ++ DQ ++ ": 7}".

(** The window after the startup query has returned [{}], and then
    after a click on Refresh. *)
Definition after_first_query : gui :=
  @run cpython init [StartupTimer; Callback refresh_worker 0 "{}" ""].

Definition refreshing_again : gui := @step cpython after_first_query (Click refresh_btn).

(** A machine where PowerShell exists but may not be started, one where
    it prints blank lines only, and one where a run takes 601 seconds. *)
Definition locked_machine : Host := {|
  environ_SystemRoot := None;
  path_join := Reference.join;
  path_exists := fun p => String.eqb p powershell64;
  subprocess_run := fun _ _ => OtherError "[WinError 5] Access is denied"
|}.

Definition blank_machine : Host :=
  machine None [powershell64] 2 0 (" " ++ LF ++ "  " ++ LF) "".

Definition stuck_machine : Host := machine None [powershell64] 601 0 "" "".

(** The window while an assessment started after the first query runs. *)
Definition assessing : gui := @step cpython after_first_query (Click run_btn).

(** Two objects with the same recognized keys, in different orders and
    with different other keys. *)
Definition seven_score : list (string * pyval Empty_set) :=
  [("CPUScore", PInt 7); ("Vendor", PStr "x")].

Definition seven_score_reordered : list (string * pyval Empty_set) :=
  [("Extra", PList []); ("CPUScore", PInt 7)].

(** * Properties *)

(** ** Strings *)

Lemma list_ascii_app (a b : string) :
  list_ascii_of_string (a ++ b) = (list_ascii_of_string a ++ list_ascii_of_string b)%list.
Proof. induction a as [|c a IH]; simpl; [reflexivity | now rewrite IH]. Qed.

Lemma string_length_app (a b : string) :
  String.length (a ++ b) = (String.length a + String.length b)%nat.
Proof. induction a as [|c a IH]; simpl; [reflexivity | now rewrite IH]. Qed.

Lemma starts_with_app (n rest : list ascii) : starts_with n (n ++ rest) = true.
Proof.
  induction n as [|c n IH]; simpl; [reflexivity|].
  now rewrite Ascii.eqb_refl.
Qed.

Lemma contains_at_app (n before rest : list ascii) :
  contains_at n (before ++ n ++ rest) = true.
Proof.
  induction before as [|c before IH]; simpl.
  - destruct n; simpl; [destruct rest; reflexivity|].
    rewrite Ascii.eqb_refl, starts_with_app. reflexivity.
  - rewrite IH. apply orb_true_r.
Qed.

Lemma contains_app (n before rest : string) : contains n (before ++ n ++ rest) = true.
Proof.
  unfold contains. rewrite !list_ascii_app. apply contains_at_app.
Qed.

Lemma contains_app_end (n before : string) : contains n (before ++ n) = true.
Proof.
  unfold contains. rewrite list_ascii_app.
  rewrite <- (app_nil_r (list_ascii_of_string n)) at 2. apply contains_at_app.
Qed.

(** ** The assessment-state decoder *)

Section Decoder.

Context {py : Python}.

(** C1, as amended: for every input [v] of the decoder, if [int(v)] is 1
    the result is exactly ["1 (Valid/Completed)"], if it is 0 the result
    is exactly ["0 (Not run/Unknown)"] (the names are followed by the
    closing parenthesis), if it is any other integer [iv] the result is
    [iv] in decimal followed by [" (Unknown meaning)"], and if [int(v)]
    raises the result is [str(v)]. *)
Theorem decode_assessment_state_cases (v : pyval float) :
  (py_int v = Some 1 -> decode_assessment_state v = "1 (Valid/Completed)") /\
  (py_int v = Some 0 -> decode_assessment_state v = "0 (Not run/Unknown)") /\
  (forall iv, py_int v = Some iv -> iv <> 1 -> iv <> 0 ->
     decode_assessment_state v = pretty iv ++ " (Unknown meaning)") /\
  (py_int v = None -> decode_assessment_state v = py_str v).
Proof.
  unfold decode_assessment_state.
  repeat split.
  - intros ->. reflexivity.
  - intros ->. reflexivity.
  - intros iv -> H1 H0.
    destruct (Z.eqb_spec iv 1) as [E|_]; [contradiction|].
    destruct (Z.eqb_spec iv 0) as [E|_]; [contradiction|].
    reflexivity.
  - intros ->. reflexivity.
Qed.

(** Both names sit inside the label, before its last character. *)
Lemma decode_label_contains_name (v : pyval float) :
  (py_int v = Some 1 ->
   contains "Valid/Completed" (decode_assessment_state v) = true /\
   ends_with "Valid/Completed)" (decode_assessment_state v) = true) /\
  (py_int v = Some 0 ->
   contains "Not run/Unknown" (decode_assessment_state v) = true /\
   ends_with "Not run/Unknown)" (decode_assessment_state v) = true).
Proof.
  unfold decode_assessment_state.
  split; intros ->; split; reflexivity.
Qed.

(** The samples of the specification: 7 and a string [int] rejects. *)
Lemma decode_samples :
  decode_assessment_state (PInt 7) = "7 (Unknown meaning)" /\
  (str_int "abc" = None -> decode_assessment_state (PStr "abc") = "abc").
Proof.
  split; [reflexivity|].
  intros E. unfold decode_assessment_state. simpl. rewrite E. reflexivity.
Qed.

End Decoder.

(** The decoder on [True], on strings [int] accepts and rejects, and on a
    list. *)
Lemma decode_assessment_state_cases_witness :
  @decode_assessment_state cpython (PBool true) = "1 (Valid/Completed)" /\
  @decode_assessment_state cpython (PStr " -0 ") = "0 (Not run/Unknown)" /\
  @decode_assessment_state cpython (PStr "+1_7") = "17 (Unknown meaning)" /\
  @decode_assessment_state cpython (PStr "abc") = "abc" /\
  @decode_assessment_state cpython (PList [PInt 1]) = "[1]".
Proof.
  refine (conj _ (conj _ (conj _ (conj _ _)))).
  - apply (proj1 (@decode_assessment_state_cases cpython (PBool true))).
    reflexivity.
  - apply (proj1 (proj2 (@decode_assessment_state_cases cpython (PStr " -0 ")))).
    vm_compute. reflexivity.
  - apply (proj1 (proj2 (proj2 (@decode_assessment_state_cases cpython (PStr "+1_7")))) 17).
    + vm_compute. reflexivity.
    + lia.
    + lia.
  - apply (proj2 (proj2 (proj2 (@decode_assessment_state_cases cpython (PStr "abc"))))).
    vm_compute. reflexivity.
  - apply (proj2 (proj2 (proj2 (@decode_assessment_state_cases cpython (PList [PInt 1]))))).
    reflexivity.
Defined.

(** C1 as stated fails at the input 1: the label the decoder returns is
    ["1 (Valid/Completed)"], whose last character is the closing
    parenthesis, so it does not end in ["Valid/Completed"]. *)
Lemma decode_label_ends_with_parenthesis :
  @decode_assessment_state cpython (PInt 1) = "1 (Valid/Completed)" /\
  ~ (forall v : pyval (@float cpython),
       @py_int cpython v = Some 1 ->
       ends_with "Valid/Completed" (@decode_assessment_state cpython v) = true).
Proof.
  split; [reflexivity|].
  intros H. specialize (H (PInt 1) eq_refl). vm_compute in H. discriminate H.
Qed.

(** ** The interpreter resolver and the process invoker *)

Section InvokerFacts.

Context {py : Python} {host : Host}.

(** C9: the resolver is a total function of the environment; it returns
    the System32 path under the system root when that path exists,
    otherwise the Sysnative path when that exists, otherwise the bare
    command name; the system root is the variable's value, or
    [C:\Windows] when the variable is unset. *)
Theorem resolve_powershell_path_order :
  let system_root :=
    match environ_SystemRoot with Some r => r | None => "C:\Windows" end in
  let ps_system32 :=
    path_join system_root ["System32"; "WindowsPowerShell"; "v1.0"; "powershell.exe"] in
  let ps_sysnative :=
    path_join system_root ["Sysnative"; "WindowsPowerShell"; "v1.0"; "powershell.exe"] in
  (exists s : string, resolve_powershell_path = s) /\
  (path_exists ps_system32 = true -> resolve_powershell_path = ps_system32) /\
  (path_exists ps_system32 = false -> path_exists ps_sysnative = true ->
   resolve_powershell_path = ps_sysnative) /\
  (path_exists ps_system32 = false -> path_exists ps_sysnative = false ->
   resolve_powershell_path = "powershell").
Proof.
  unfold resolve_powershell_path.
  destruct environ_SystemRoot as [r|]; simpl;
    (split; [eexists; reflexivity|]);
    repeat split; intros; repeat match goal with H : _ = _ |- _ => rewrite H end;
    reflexivity.
Qed.

(** C7: with [cmd] the argument vector [run_powershell] builds, when
    [subprocess.run] reports the executable missing the result is
    [(127, "", message)]: nothing was captured from a process, the output
    slot is empty and the error slot carries the message, which names the
    resolved path; when it reports the timeout the result is
    [(124, "", message)] and the message contains the timeout in decimal;
    every other triple [run_powershell] returns carries the exit status
    of the process itself; and [subprocess.run] is called exactly once,
    with [cmd] and the timeout. *)
Theorem run_powershell_sentinels (ps_script : string) (timeout_sec : Z) :
  let ps_exe := resolve_powershell_path in
  let cmd := [ps_exe; "-NoProfile"; "-ExecutionPolicy"; "Bypass"; "-Command"; ps_script] in
  let not_found := "PowerShell executable not found at: " ++ ps_exe in
  let timed_out := "PowerShell timed out after " ++ pretty timeout_sec ++ " seconds." in
  (subprocess_run cmd timeout_sec = FileNotFoundError ->
   fst (run_powershell ps_script timeout_sec) = Return (127, "", not_found) /\
   contains ps_exe not_found = true) /\
  (subprocess_run cmd timeout_sec = TimeoutExpired ->
   fst (run_powershell ps_script timeout_sec) = Return (124, "", timed_out) /\
   contains (pretty timeout_sec) timed_out = true) /\
  (forall rc out err,
     fst (run_powershell ps_script timeout_sec) = Return (rc, out, err) ->
     (exists stdout stderr,
        subprocess_run cmd timeout_sec = Completed rc stdout stderr /\
        out = str_strip stdout /\ err = str_strip stderr) \/
     (rc = 127 /\ out = "" /\ subprocess_run cmd timeout_sec = FileNotFoundError) \/
     (rc = 124 /\ out = "" /\ subprocess_run cmd timeout_sec = TimeoutExpired)) /\
  snd (run_powershell ps_script timeout_sec) = [(cmd, timeout_sec)].
Proof.
  intros ps_exe cmd not_found timed_out.
  unfold run_powershell, spawn, proc_bind, proc_ret.
  fold ps_exe. fold cmd.
  repeat split.
  - rewrite H. reflexivity.
  - apply contains_app_end.
  - rewrite H. reflexivity.
  - apply contains_app.
  - intros rc out err.
    destruct (subprocess_run cmd timeout_sec) as [rc' o e| | |m]; simpl;
      intros E; inversion E; subst; eauto 10.
Qed.

End InvokerFacts.

(** ** Effects on the window *)

Lemma exec_app (a b : list action) (g : gui) : exec (a ++ b) g = exec b (exec a g).
Proof. apply fold_left_app. Qed.

Lemma exec_cons (a : action) (acts : list action) (g : gui) :
  exec (a :: acts) g = exec acts (perform g a).
Proof. reflexivity. Qed.

(** A component of the window that none of the effects of a method
    touches is the same after the method. *)
Lemma exec_frame {A : Type} (proj : gui -> A) (touches : action -> bool) :
  (forall a g, touches a = false -> proj (perform g a) = proj g) ->
  forall acts g, existsb touches acts = false -> proj (exec acts g) = proj g.
Proof.
  intros Hkeep acts.
  induction acts as [|a acts IH]; intros g H; [reflexivity|].
  simpl in H. apply orb_false_iff in H as [Ha Hacts].
  rewrite exec_cons, IH by assumption.
  apply Hkeep, Ha.
Qed.

Lemma threads_exec (acts : list action) (g : gui) :
  threads (exec acts g) = (threads g ++ started acts)%list.
Proof.
  revert g. induction acts as [|a acts IH]; intros g.
  - simpl. now rewrite app_nil_r.
  - rewrite exec_cons, IH. destruct a; simpl; try reflexivity.
    + destruct b; reflexivity.
    + now rewrite <- app_assoc.
Qed.

Lemma startup_timer_exec (acts : list action) (g : gui) :
  startup_timer (exec acts g) = startup_timer g.
Proof.
  apply (exec_frame startup_timer (fun _ => false)).
  - intros a g' _. destruct a; try reflexivity. destruct b; reflexivity.
  - induction acts; simpl; auto.
Qed.

Lemma buttons_frame (acts : list action) (g : gui) (b : button) :
  existsb is_button_state acts = false ->
  button_normal (exec acts g) b = button_normal g b.
Proof.
  apply (exec_frame (fun g => button_normal g b) is_button_state).
  intros a g' H. destruct a; try reflexivity; discriminate H.
Qed.

Lemma raw_json_frame (acts : list action) (g : gui) :
  existsb is_raw_json_set acts = false -> raw_json (exec acts g) = raw_json g.
Proof.
  apply (exec_frame raw_json is_raw_json_set).
  intros a g' H. destruct a; try reflexivity; try discriminate H.
  destruct b; reflexivity.
Qed.

Lemma fields_frame (acts : list action) (g : gui) :
  existsb is_field_set acts = false -> fields (exec acts g) = fields g.
Proof.
  apply (exec_frame fields is_field_set).
  intros a g' H. destruct a; try reflexivity; try discriminate H.
  destruct b; reflexivity.
Qed.

Lemma set_busy_buttons (b : bool) (msg : string) (g : gui) (k : button) :
  button_normal (exec (_set_busy b msg) g) k = negb b.
Proof. destruct b, k; reflexivity. Qed.

Lemma ready_iff (g : gui) :
  ready g = true <-> forall k, button_normal g k = true.
Proof.
  unfold ready. split.
  - intros H k. apply andb_true_iff in H as [H H3]. apply andb_true_iff in H as [H1 H2].
    destruct k; assumption.
  - intros H. rewrite (H refresh_btn : refresh_normal g = true).
    rewrite (H run_btn : run_normal g = true).
    rewrite (H copy_btn : copy_normal g = true). reflexivity.
Qed.

Lemma busy_iff (g : gui) :
  busy g = true <-> forall k, button_normal g k = false.
Proof.
  unfold busy. split.
  - intros H k. apply andb_true_iff in H as [H H3]. apply andb_true_iff in H as [H1 H2].
    apply negb_true_iff in H1, H2, H3. destruct k; assumption.
  - intros H. rewrite (H refresh_btn : refresh_normal g = false).
    rewrite (H run_btn : run_normal g = false).
    rewrite (H copy_btn : copy_normal g = false). reflexivity.
Qed.

Lemma set_busy_false_ready (msg : string) (g : gui) :
  ready (exec (_set_busy false msg) g) = true.
Proof. apply ready_iff. intros k. apply set_busy_buttons. Qed.

Lemma set_busy_true_busy (msg : string) (g : gui) :
  busy (exec (_set_busy true msg) g) = true.
Proof. apply busy_iff. intros k. apply set_busy_buttons. Qed.

(** ** The query handler and the assessment chain *)

Section Handlers.

Context {py : Python}.

Ltac branches :=
  repeat match goal with
    | |- context [match json_loads ?o with _ => _ end] => destruct (json_loads o) eqn:?
    | |- context [match first_of_list ?o with _ => _ end] => destruct (first_of_list o) eqn:?
    | |- context [if ?c then _ else _] => destruct c eqn:?
    end.

Lemma parse_and_apply_no_thread (out : string) :
  existsb is_thread_start (parse_and_apply out) = false.
Proof. unfold parse_and_apply. branches; reflexivity. Qed.

Lemma parse_and_apply_no_button (out : string) :
  existsb is_button_state (parse_and_apply out) = false.
Proof. unfold parse_and_apply. branches; reflexivity. Qed.

Lemma parse_and_apply_keeps_raw_json (out : string) :
  existsb is_raw_json_set (parse_and_apply out) = false.
Proof. unfold parse_and_apply. branches; reflexivity. Qed.

Lemma started_no_thread (acts : list action) :
  existsb is_thread_start acts = false -> started acts = [].
Proof.
  induction acts as [|a acts IH]; [reflexivity|].
  simpl. intros H. apply orb_false_iff in H as [Ha H].
  rewrite (IH H). destruct a; try reflexivity; discriminate Ha.
Qed.

Lemma handle_query_result_no_thread (rc : Z) (out err : string) :
  started (_handle_query_result rc out err) = [].
Proof.
  apply started_no_thread. unfold _handle_query_result.
  rewrite existsb_app. apply orb_false_iff. split; [|reflexivity].
  branches; try reflexivity.
  rewrite !existsb_app, parse_and_apply_no_thread. reflexivity.
Qed.

(** Whatever the exit status and the output, the [finally] clause
    leaves the window ready. *)
Lemma handle_query_result_ready (rc : Z) (out err : string) (g : gui) :
  ready (exec (_handle_query_result rc out err) g) = true.
Proof.
  unfold _handle_query_result. rewrite exec_app. apply set_busy_false_ready.
Qed.

(** The shape of the handler on exit status 0 and non-empty output. *)
Lemma handle_query_result_parse (out err : string) :
  out <> "" ->
  _handle_query_result 0 out err =
    (([RawJsonSet out] ++ _log "Raw JSON:" ++ _log out ++ parse_and_apply out)
     ++ _set_busy false "")%list.
Proof.
  intros H. unfold _handle_query_result.
  destruct out as [|c r]; [contradiction|]. reflexivity.
Qed.

(** C4: on exit status 0 the handler produces no score record exactly
    when the output is empty, or [json.loads] raises, or the decoded
    value (its first element, for a non-empty list) is not a dict; the
    empty output is reported by the notice of [EmptyOutput] alone, the
    other two by the notice of [ParseError] alone, as are the samples
    ["not json"], ["[]"] and ["42"] given what [json.loads] makes of
    them; and for every exit status and output the window is ready when
    the handler is done. *)
Theorem handle_query_result_failures (out err : string) :
  let acts := _handle_query_result 0 out err in
  let not_an_object := "Unexpected JSON structure (not an object)." in
  (displays_scores acts = false <->
   out = "" \/
   (exists e, json_loads out = Raise e) \/
   (exists obj, json_loads out = Return obj /\ is_dict (first_of_list obj) = false)) /\
  (out = "" -> filter is_notice acts = [failure_notice EmptyOutput]) /\
  (out <> "" -> forall e, json_loads out = Raise e ->
   filter is_notice acts = [failure_notice (ParseError e)]) /\
  (out <> "" -> forall obj, json_loads out = Return obj ->
   is_dict (first_of_list obj) = false ->
   filter is_notice acts = [failure_notice (ParseError not_an_object)]) /\
  (forall e, json_loads "not json" = Raise e ->
   filter is_notice (_handle_query_result 0 "not json" err)
   = [failure_notice (ParseError e)]) /\
  (json_loads "[]" = Return (PList []) ->
   filter is_notice (_handle_query_result 0 "[]" err)
   = [failure_notice (ParseError not_an_object)]) /\
  (json_loads "42" = Return (PInt 42) ->
   filter is_notice (_handle_query_result 0 "42" err)
   = [failure_notice (ParseError not_an_object)]) /\
  (forall rc g, ready (exec (_handle_query_result rc out err) g) = true).
Proof.
  intros acts not_an_object.
  assert (Hraise : forall o e, o <> "" -> json_loads o = Raise e ->
            filter is_notice (_handle_query_result 0 o err)
            = [failure_notice (ParseError e)] /\
            displays_scores (_handle_query_result 0 o err) = false).
  { intros o e Ho He. rewrite (handle_query_result_parse o err Ho).
    unfold parse_and_apply, displays_scores. rewrite He. split; reflexivity. }
  assert (Hshape : forall o obj, o <> "" -> json_loads o = Return obj ->
            is_dict (first_of_list obj) = false ->
            filter is_notice (_handle_query_result 0 o err)
            = [failure_notice (ParseError not_an_object)] /\
            displays_scores (_handle_query_result 0 o err) = false).
  { intros o obj Ho He Hd. rewrite (handle_query_result_parse o err Ho).
    unfold parse_and_apply, displays_scores. rewrite He.
    destruct (first_of_list obj); try discriminate Hd; split; reflexivity. }
  split; [|split; [|split; [|split; [|split; [|split; [|split]]]]]].
  - split.
    + intros Hno.
      destruct out as [|c r]; [left; reflexivity|right].
      destruct (json_loads (String c r)) as [obj|e] eqn:He; [right|left; eauto].
      exists obj. split; [reflexivity|].
      destruct (first_of_list obj) eqn:Hf; try reflexivity.
      exfalso. subst acts.
      rewrite (handle_query_result_parse (String c r) err) in Hno by discriminate.
      unfold parse_and_apply, displays_scores in Hno. rewrite He, Hf in Hno.
      discriminate Hno.
    + intros [->|[[e He]|(obj & He & Hd)]].
      * reflexivity.
      * destruct out as [|c r]; [reflexivity|].
        apply (Hraise (String c r) e); [discriminate|assumption].
      * destruct out as [|c r]; [reflexivity|].
        apply (Hshape (String c r) obj); [discriminate|assumption..].
  - intros ->. reflexivity.
  - intros Ho e He. apply (Hraise out e Ho He).
  - intros Ho obj He Hd. apply (Hshape out obj Ho He Hd).
  - intros e He. apply (Hraise "not json" e); [discriminate|assumption].
  - intros He. apply (Hshape "[]" (PList [])); [discriminate|assumption|reflexivity].
  - intros He. apply (Hshape "42" (PInt 42)); [discriminate|assumption|reflexivity].
  - intros rc g. apply handle_query_result_ready.
Qed.

(** A method that enables no button leaves a busy window busy. *)
Lemma busy_kept (acts : list action) (g : gui) :
  existsb is_enable acts = false -> busy g = true -> busy (exec acts g) = true.
Proof.
  revert g. induction acts as [|a acts IH]; intros g H Hb; [assumption|].
  simpl in H. apply orb_false_iff in H as [Ha H].
  rewrite exec_cons. apply IH; [assumption|].
  destruct a; try assumption.
  - destruct normal; [discriminate Ha|].
    unfold busy in *. apply andb_true_iff in Hb as [Hb H3].
    apply andb_true_iff in Hb as [H1 H2].
    destruct b; simpl; rewrite ?H1, ?H2, ?H3; reflexivity.
Qed.

Lemma existsb_firstn {A : Type} (f : A -> bool) (n : nat) (l : list A) :
  existsb f l = false -> existsb f (firstn n l) = false.
Proof.
  revert n. induction l as [|a l IH]; intros [|n] H; try reflexivity.
  simpl in *. apply orb_false_iff in H as [Ha H].
  rewrite Ha, (IH n H). reflexivity.
Qed.

(** The text the assessment callback logs on exit status 0, lines
    305-312. *)
Lemma run_assessment_done_zero (out err : string) :
  run_assessment_done 0 out err =
    (((if str_bool out then _log "WinSAT output:" ++ _log out else []) ++
      (if str_bool err then _log "WinSAT stderr:" ++ _log err else []) ++
      _log (LF ++ "Re-querying Win32_WinSAT…" ++ LF)) ++
     _set_busy true "Re-querying Win32_WinSAT…" ++
     [ThreadStart refresh_after_assessment])%list.
Proof.
  unfold run_assessment_done. simpl negb. cbv iota.
  unfold start_thread, thread_prologue.
  rewrite <- !app_assoc. reflexivity.
Qed.

Lemma assessment_succeeded (out err : string) :
  started (run_assessment_done 0 out err) = [refresh_after_assessment] /\
  existsb is_enable (run_assessment_done 0 out err) = false /\
  (forall g, busy (exec (run_assessment_done 0 out err) g) = true /\
             threads (exec (run_assessment_done 0 out err) g)
             = (threads g ++ [refresh_after_assessment])%list).
Proof.
  assert (Hstart : started (run_assessment_done 0 out err) = [refresh_after_assessment]).
  { unfold run_assessment_done. simpl negb. cbv iota.
    destruct (str_bool err), (str_bool out); reflexivity. }
  split; [assumption|]. split.
  - unfold run_assessment_done. simpl negb. cbv iota.
    destruct (str_bool err), (str_bool out); reflexivity.
  - intros g. split.
    + rewrite run_assessment_done_zero, app_assoc, exec_app.
      apply busy_kept; [reflexivity|].
      rewrite exec_app. apply set_busy_true_busy.
    + rewrite threads_exec, Hstart. reflexivity.
Qed.

Lemma assessment_failed (rc : Z) (out err : string) :
  rc <> 0 ->
  started (run_assessment_done rc out err) = [] /\
  filter is_notice (run_assessment_done rc out err)
  = [ShowError APP_TITLE
       ("WinSAT assessment failed." ++ LF ++
        "Try running this program from an elevated (Admin) terminal." ++ LF ++
        "See log for details.")] /\
  (forall g, ready (exec (run_assessment_done rc out err) g) = true /\
             threads (exec (run_assessment_done rc out err) g) = threads g).
Proof.
  intros Hrc.
  assert (Hstart : started (run_assessment_done rc out err) = []).
  { unfold run_assessment_done.
    destruct (Z.eqb_spec rc 0) as [E|_]; [contradiction|]. simpl negb. cbv iota.
    destruct (str_bool err), (str_bool out); reflexivity. }
  split; [assumption|]. split.
  - unfold run_assessment_done.
    destruct (Z.eqb_spec rc 0) as [E|_]; [contradiction|]. simpl negb. cbv iota.
    destruct (str_bool err), (str_bool out); reflexivity.
  - intros g. split.
    + unfold run_assessment_done.
      destruct (Z.eqb_spec rc 0) as [E|_]; [contradiction|]. simpl negb. cbv iota.
      rewrite !app_assoc, exec_app. apply set_busy_false_ready.
    + rewrite threads_exec, Hstart. apply app_nil_r.
Qed.

(** ** The stored raw output and the copy action *)

(** C10: on exit status 0 and non-empty output the first effect of the
    handler is the assignment of that output to [raw_json], ahead of the
    decoding, and nothing after it assigns [raw_json] again; so the
    stored text is that output whatever was stored before and whatever
    [json.loads] makes of it, and when [json.loads] raises, a click on
    Copy afterwards puts that very text on the clipboard. *)
Theorem raw_json_set_before_parse (out err : string) :
  out <> "" ->
  (exists rest,
     _handle_query_result 0 out err = RawJsonSet out :: rest /\
     rest = (_log "Raw JSON:" ++ _log out ++ parse_and_apply out ++ _set_busy false "")%list /\
     existsb is_raw_json_set rest = false) /\
  (forall g, raw_json (exec (_handle_query_result 0 out err) g) = Some out) /\
  (forall g e, json_loads out = Raise e ->
     let g' := exec (_handle_query_result 0 out err) g in
     filter is_notice (_handle_query_result 0 out err) = [failure_notice (ParseError e)] /\
     raw_json g' = Some out /\
     clipboard (step g' (Click copy_btn)) = out).
Proof.
  intros Ho.
  pose (rest := (_log "Raw JSON:" ++ _log out ++ parse_and_apply out
                      ++ _set_busy false "")%list).
  assert (Hshape : _handle_query_result 0 out err = RawJsonSet out :: rest).
  { rewrite (handle_query_result_parse out err Ho). unfold rest.
    rewrite <- !app_assoc. reflexivity. }
  assert (Hrest : existsb is_raw_json_set rest = false).
  { unfold rest. rewrite !existsb_app, parse_and_apply_keeps_raw_json. reflexivity. }
  assert (Hraw : forall g, raw_json (exec (_handle_query_result 0 out err) g) = Some out).
  { intros g. rewrite Hshape, exec_cons, raw_json_frame by assumption. reflexivity. }
  split; [|split].
  - exists rest. auto.
  - assumption.
  - intros g e He g'. split; [|split].
    + rewrite (handle_query_result_parse out err Ho).
      unfold parse_and_apply. rewrite He. reflexivity.
    + apply Hraw.
    + assert (Hc : copy_normal g' = true).
      { apply (proj1 (ready_iff g') (handle_query_result_ready 0 out err g) copy_btn). }
      unfold step. simpl button_normal. rewrite Hc.
      unfold command, copy_json. rewrite (Hraw g : raw_json g' = Some out).
      destruct out as [|c r]; [contradiction|]. reflexivity.
Qed.

(** C8, as amended: a click on Copy does nothing at all while the
    window is busy (the button is disabled); while it is ready and a
    non-empty raw output is stored, the click puts that output on the
    clipboard; while it is ready and nothing is stored, the click only
    shows a notice; and in every case the three buttons and the threads
    in flight are as before, so the Ready/Busy state does not change. *)
Theorem copy_json_when_ready (g : gui) :
  let g' := step g (Click copy_btn) in
  (busy g = true -> g' = g) /\
  (ready g = true -> forall s, raw_json g = Some s -> s <> "" ->
   clipboard g' = s /\ status_var g' = "JSON copied to clipboard." /\
   shown g' = shown g /\ raw_json g' = raw_json g) /\
  (ready g = true -> raw_json g = None \/ raw_json g = Some "" ->
   g' = perform g (ShowInfo APP_TITLE "No JSON available yet. Click Refresh first.")) /\
  (forall b, button_normal g' b = button_normal g b) /\
  busy g' = busy g /\ ready g' = ready g /\ threads g' = threads g.
Proof.
  intros g'. subst g'. unfold step. simpl button_normal.
  split; [|split; [|split]].
  - intros Hb. rewrite (proj1 (busy_iff g) Hb copy_btn : copy_normal g = false).
    reflexivity.
  - intros Hr s Hs Hne.
    rewrite (proj1 (ready_iff g) Hr copy_btn : copy_normal g = true).
    unfold command, copy_json. rewrite Hs.
    destruct s as [|c r]; [contradiction|]. destruct g. repeat split; assumption.
  - intros Hr Hs.
    rewrite (proj1 (ready_iff g) Hr copy_btn : copy_normal g = true).
    unfold command, copy_json. destruct Hs as [-> | ->]; reflexivity.
  - destruct (copy_normal g); [|repeat split; reflexivity].
    unfold command, copy_json.
    destruct (raw_json g) as [[|c r]|]; destruct g; repeat split;
      try reflexivity; intros []; reflexivity.
Qed.

(** ** The score rows *)

Lemma dict_get_absent (obj : list (string * pyval float)) (key : string) :
  dict_has obj key = false -> dict_get obj key = PNone.
Proof.
  induction obj as [|[k x] obj IH]; simpl; [reflexivity|].
  destruct (String.eqb k key); [discriminate|assumption].
Qed.

(** After [_apply_scores] every row of the mapping holds the text
    computed for its key. *)
Lemma fields_apply_scores (obj : list (string * pyval float)) (g : gui)
  (ui_label key : string) :
  In (ui_label, key) mapping ->
  fields (exec (_apply_scores obj) g) !! ui_label = Some (shown_value key obj).
Proof.
  intros Hin. unfold _apply_scores, mapping in *.
  cbn [map exec fold_left perform fields].
  cbn [In] in Hin.
  repeat (destruct Hin as [Hin|Hin];
          [injection Hin as <- <-;
           rewrite ?lookup_insert_eq; rewrite ?lookup_insert_ne by discriminate;
           rewrite ?lookup_insert_eq; reflexivity|]).
  contradiction.
Qed.

Lemma decoded_label_not_placeholder (iv : Z) :
  (if (iv =? 1)%Z then "1 (Valid/Completed)"
   else if (iv =? 0)%Z then "0 (Not run/Unknown)"
   else pretty iv ++ " (Unknown meaning)") <> "-".
Proof.
  destruct (iv =? 1)%Z; [discriminate|].
  destruct (iv =? 0)%Z; [discriminate|].
  intros H. apply (f_equal String.length) in H.
  rewrite string_length_app in H.
  change (String.length " (Unknown meaning)") with 18%nat in H.
  change (String.length "-") with 1%nat in H. lia.
Qed.

(** C6, as amended: after [_apply_scores], for every row of the mapping
    the window shows the placeholder ["-"] when the key is absent from the
    object or its value is [None] (JSON [null]); otherwise it shows
    [str] of the value, except on the row of [WinSATAssessmentState],
    which shows the decoded label; a value that is the integer 0, or a
    float whose [repr] is not the placeholder itself, is never shown as
    the placeholder. *)
Theorem apply_scores_rows (obj : list (string * pyval float)) (g : gui)
  (ui_label key : string) :
  In (ui_label, key) mapping ->
  let v := dict_get obj key in
  let row := fields (exec (_apply_scores obj) g) !! ui_label in
  (dict_has obj key = false -> row = Some "-") /\
  (v = PNone -> row = Some "-") /\
  (v <> PNone -> key <> "WinSATAssessmentState" -> row = Some (py_str v)) /\
  (v <> PNone -> key = "WinSATAssessmentState" ->
   row = Some (decode_assessment_state v)) /\
  (v = PInt 0 -> row <> Some "-") /\
  (forall f, v = PFloat f -> float_repr f <> "-" -> row <> Some "-").
Proof.
  intros Hin v row. subst row.
  rewrite (fields_apply_scores obj g ui_label key Hin).
  unfold shown_value. fold v.
  split; [|split; [|split; [|split; [|split]]]];
    [| | | | |intros f -> Hf;
              destruct (String.eqb key "WinSATAssessmentState");
              [unfold decode_assessment_state; simpl;
               destruct (float_int f) as [iv|];
               [intros H; injection H; apply decoded_label_not_placeholder
               |simpl; congruence]
              |simpl; congruence]].
  - intros Habs. subst v. rewrite (dict_get_absent obj key Habs). reflexivity.
  - intros ->. reflexivity.
  - intros Hv Hk. apply String.eqb_neq in Hk. rewrite Hk.
    destruct v; try reflexivity. contradiction.
  - intros Hv ->. simpl String.eqb.
    destruct v; try reflexivity. contradiction.
  - intros ->. destruct (String.eqb key "WinSATAssessmentState"); discriminate.
Qed.

(** ** Lists of objects *)

(** C5: when a text decodes to a list whose first element is the dict
    [d] and another text decodes to [d] itself, decoding and displaying
    the one has the effects of decoding and displaying the other; the
    handler differs between the two only in the raw text it stores and
    echoes first, and the rows it leaves are the same. *)
Theorem list_output_uses_first (t t1 : string) (d : list (string * pyval float))
  (others : list (pyval float)) (err : string) :
  json_loads t = Return (PList (PDict d :: others)) ->
  json_loads t1 = Return (PDict d) ->
  parse_and_apply t = parse_and_apply t1 /\
  displays_scores (parse_and_apply t) = true /\
  (t <> "" -> t1 <> "" ->
   exists shared,
     _handle_query_result 0 t err
     = ([RawJsonSet t] ++ _log "Raw JSON:" ++ _log t ++ shared)%list /\
     _handle_query_result 0 t1 err
     = ([RawJsonSet t1] ++ _log "Raw JSON:" ++ _log t1 ++ shared)%list /\
     forall g ui_label key, In (ui_label, key) mapping ->
       fields (exec (_handle_query_result 0 t err) g) !! ui_label
       = fields (exec (_handle_query_result 0 t1 err) g) !! ui_label).
Proof.
  intros Ht Ht1.
  assert (Hp : parse_and_apply t = (_apply_scores d ++ [StatusSet "WinSAT scores updated."])%list).
  { unfold parse_and_apply. rewrite Ht. reflexivity. }
  assert (Hp1 : parse_and_apply t1 = (_apply_scores d ++ [StatusSet "WinSAT scores updated."])%list).
  { unfold parse_and_apply. rewrite Ht1. reflexivity. }
  split; [congruence|]. split; [rewrite Hp; reflexivity|].
  intros Hne Hne1.
  exists (parse_and_apply t ++ _set_busy false "")%list.
  assert (Hrows : forall o g ui_label key, In (ui_label, key) mapping ->
            fields (exec (([RawJsonSet o] ++ _log "Raw JSON:" ++ _log o
                           ++ _apply_scores d ++ [StatusSet "WinSAT scores updated."])
                          ++ _set_busy false "") g) !! ui_label
            = Some (shown_value key d)).
  { intros o g ui_label key Hin.
    rewrite exec_app, fields_frame by reflexivity.
    rewrite 4!exec_app, fields_frame by reflexivity.
    apply fields_apply_scores, Hin. }
  split; [|split].
  - rewrite (handle_query_result_parse t err Hne), <- !app_assoc. reflexivity.
  - rewrite (handle_query_result_parse t1 err Hne1), Hp, Hp1, <- !app_assoc. reflexivity.
  - intros g ui_label key Hin.
    rewrite (handle_query_result_parse t err Hne), (handle_query_result_parse t1 err Hne1).
    rewrite Hp, Hp1.
    rewrite (Hrows t g ui_label key Hin), (Hrows t1 g ui_label key Hin). reflexivity.
Qed.

(** ** The Busy gate *)

Lemma refresh_scores_busy (g : gui) :
  busy (exec refresh_scores g) = true /\
  threads (exec refresh_scores g) = (threads g ++ [refresh_worker])%list.
Proof.
  split; [|rewrite threads_exec; reflexivity].
  unfold refresh_scores. rewrite exec_app.
  apply busy_kept; [reflexivity|apply set_busy_true_busy].
Qed.

Lemma run_assessment_busy (g : gui) :
  busy (exec run_assessment g) = true /\
  threads (exec run_assessment g) = (threads g ++ [assessment_worker])%list.
Proof.
  split; [|rewrite threads_exec; reflexivity].
  unfold run_assessment. rewrite exec_app.
  apply busy_kept; [reflexivity|apply set_busy_true_busy].
Qed.

Lemma copy_json_quiet (g g0 : gui) :
  (forall b, button_normal (exec (copy_json g) g0) b = button_normal g0 b) /\
  threads (exec (copy_json g) g0) = threads g0.
Proof.
  unfold copy_json.
  destruct (raw_json g) as [[|c r]|]; destruct g0; split;
    try reflexivity; intros []; reflexivity.
Qed.

(** A click on any button of a busy window changes nothing. *)
Lemma click_while_busy (g : gui) (b : button) :
  busy g = true -> step g (Click b) = g.
Proof.
  intros Hb. unfold step. rewrite (proj1 (busy_iff g) Hb b). reflexivity.
Qed.

Lemma job_eqb_eq (j k : job) : job_eqb j k = true -> j = k.
Proof. destruct j, k; simpl; congruence. Qed.

Lemma remove_job_single (j : job) : remove_job j [j] = [].
Proof. destruct j; reflexivity. Qed.

(** The callback of a thread leaves the window ready with nothing new in
    flight, or busy with the one follow-up thread. *)
Lemma thread_callback_outcome (j : job) (rc : Z) (out err : string) (g : gui) :
  let g' := exec (thread_callback j rc out err) g in
  (ready g' = true /\ threads g' = threads g) \/
  (busy g' = true /\ threads g' = (threads g ++ [refresh_after_assessment])%list).
Proof.
  assert (Hq : ready (exec (_handle_query_result rc out err) g) = true /\
               threads (exec (_handle_query_result rc out err) g) = threads g).
  { split; [apply handle_query_result_ready|].
    rewrite threads_exec, handle_query_result_no_thread. apply app_nil_r. }
  destruct j; simpl; [left; exact Hq| |left; exact Hq].
  destruct (Z.eq_dec rc 0) as [->|N].
  - right. apply assessment_succeeded.
  - left. apply (assessment_failed rc out err N).
Qed.

Lemma with_threads_buttons (l : list job) (g : gui) (b : button) :
  button_normal (with_threads l g) b = button_normal g b.
Proof. destruct b; reflexivity. Qed.

(** In every state, whatever led to it, the three buttons are enabled
    together or disabled together once they were so. *)
Lemma step_ready_or_busy (g : gui) (e : event) :
  ready g = true \/ busy g = true ->
  ready (step g e) = true \/ busy (step g e) = true.
Proof.
  intros H. destruct e as [b| |j rc out err]; unfold step.
  - destruct (button_normal g b) eqn:Hn; [|assumption].
    destruct b; simpl command.
    + right. apply refresh_scores_busy.
    + right. apply run_assessment_busy.
    + destruct (copy_json_quiet g g) as [Hb _].
      destruct H as [H|H]; [left|right].
      * apply ready_iff. intros k. rewrite Hb. apply ready_iff, H.
      * apply busy_iff. intros k. rewrite Hb. apply busy_iff, H.
  - destruct (startup_timer g); [|assumption].
    right. apply refresh_scores_busy.
  - destruct (existsb (job_eqb j) (threads g)); [|assumption].
    destruct (thread_callback_outcome j rc out err
                (with_threads (remove_job j (threads g)) g)) as [[Hr _]|[Hb _]];
      [left|right]; assumption.
Qed.

Lemma init_ready : ready init = true /\ threads init = [] /\ startup_timer init = true.
Proof. repeat split. Qed.

Lemma reachable_ready_or_busy (es : list event) :
  ready (run init es) = true \/ busy (run init es) = true.
Proof.
  unfold run. rewrite <- (rev_involutive es).
  induction (rev es) as [|e l IH]; simpl.
  - left. reflexivity.
  - rewrite fold_left_app. simpl. apply step_ready_or_busy, IH.
Qed.

(** Once the startup timer is out of the way the gate is an invariant of
    the event loop. *)
Lemma gated_step (g : gui) (e : event) : gated g -> gated (step g e).
Proof.
  intros (Ht & Hg). destruct e as [b| |j rc out err].
  - destruct Hg as [[Hr Hth]|[Hb Hth]].
    + unfold step. rewrite (proj1 (ready_iff g) Hr b).
      destruct b; simpl command.
      * destruct (refresh_scores_busy g) as [Hb' Hth'].
        split; [now rewrite startup_timer_exec|].
        right. split; [assumption|]. exists refresh_worker. now rewrite Hth', Hth.
      * destruct (run_assessment_busy g) as [Hb' Hth'].
        split; [now rewrite startup_timer_exec|].
        right. split; [assumption|]. exists assessment_worker. now rewrite Hth', Hth.
      * destruct (copy_json_quiet g g) as [Hb' Hth'].
        split; [now rewrite startup_timer_exec|].
        left. split; [|now rewrite Hth'].
        apply ready_iff. intros k. rewrite Hb'. apply ready_iff, Hr.
    + rewrite (click_while_busy g b Hb). split; [assumption|right; auto].
  - unfold step. rewrite Ht. split; [assumption|assumption].
  - unfold step.
    destruct (existsb (job_eqb j) (threads g)) eqn:He; [|split; assumption].
    destruct Hg as [[Hr Hth]|[Hb [k Hth]]].
    { rewrite Hth in He. discriminate He. }
    rewrite Hth in He |- *. simpl in He. rewrite orb_false_r in He.
    apply job_eqb_eq in He. subst k. rewrite remove_job_single.
    split.
    { rewrite startup_timer_exec. exact Ht. }
    destruct (thread_callback_outcome j rc out err (with_threads [] g))
      as [[Hr' Hth']|[Hb' Hth']].
    + left. split; [assumption|]. rewrite Hth'. reflexivity.
    + right. split; [assumption|]. exists refresh_after_assessment.
      rewrite Hth'. reflexivity.
Qed.

Lemma gated_run (es : list event) (g : gui) : gated g -> gated (run g es).
Proof.
  revert g. induction es as [|e es IH]; intros g H; [assumption|].
  apply IH, gated_step, H.
Qed.

(** X12: after the startup timer has fired first, in every state at most
    one thread has been started without its callback having run, and
    there is one only while the window is busy, none while it is ready.
    The invocations in flight are among these threads, so never two run
    together and none runs while the buttons are enabled. (The converse
    does not hold of the code: a thread whose [run_powershell] raised has
    ended, and the window stays busy.) *)
Lemma one_in_flight_after_timer (es : list event) :
  let g := run init (StartupTimer :: es) in
  (in_flight g <= 1)%nat /\
  (in_flight g = 1%nat -> busy g = true) /\
  (ready g = true -> in_flight g = 0%nat).
Proof.
  intros g.
  assert (H : gated g).
  { change g with (run (step init StartupTimer) es).
    apply gated_run. split; [reflexivity|]. right. split; [reflexivity|].
    exists refresh_worker. reflexivity. }
  destruct H as (_ & [[Hr Hth]|[Hb [j Hth]]]); unfold in_flight; rewrite Hth; simpl.
  - split; [lia|]. split; [discriminate|reflexivity].
  - split; [lia|]. split; [auto|].
    intros Hr. apply ready_iff with (k := refresh_btn) in Hr.
    apply busy_iff with (k := refresh_btn) in Hb. congruence.
Qed.

(** C2 on the code: a click on Run Assessment before the startup timer
    of [__init__] has fired makes the window busy with the assessment
    thread in flight; the timer then calls [refresh_scores] although the
    window is busy, and a second thread is in flight. *)
Theorem startup_timer_ignores_busy :
  let g1 := run init [Click run_btn] in
  let g2 := run init [Click run_btn; StartupTimer] in
  busy g1 = true /\ threads g1 = [assessment_worker] /\
  busy g2 = true /\ threads g2 = [assessment_worker; refresh_worker] /\
  in_flight g2 = 2%nat /\
  ~ (forall es, (in_flight (run init es) <= 1)%nat).
Proof.
  intros g1 g2. subst g1 g2.
  assert (H2 : in_flight (run init [Click run_btn; StartupTimer]) = 2%nat).
  { vm_compute. reflexivity. }
  refine (conj _ (conj _ (conj _ (conj _ (conj H2 _))))).
  - vm_compute. reflexivity.
  - vm_compute. reflexivity.
  - vm_compute. reflexivity.
  - vm_compute. reflexivity.
  - intros H. specialize (H [Click run_btn; StartupTimer]).
    rewrite H2 in H. lia.
Qed.

End Handlers.

(** ** The properties on the samples *)

(** The resolver on the three machines. *)
Lemma resolve_powershell_path_order_witness :
  @resolve_powershell_path slow_machine = powershell64 /\
  @resolve_powershell_path sysnative_machine = powershell_sysnative /\
  @resolve_powershell_path bare_machine = "powershell".
Proof.
  refine (conj _ (conj _ _)).
  - apply (proj1 (proj2 (@resolve_powershell_path_order slow_machine))).
    vm_compute. reflexivity.
  - apply (proj1 (proj2 (proj2 (@resolve_powershell_path_order sysnative_machine)))).
    + vm_compute. reflexivity.
    + vm_compute. reflexivity.
  - apply (proj2 (proj2 (proj2 (@resolve_powershell_path_order bare_machine)))).
    + vm_compute. reflexivity.
    + vm_compute. reflexivity.
Defined.

(** The invoker where PowerShell is missing and where it is too slow. *)
Lemma run_powershell_sentinels_witness :
  fst (@run_powershell cpython bare_machine ps_query_winsat_json 30)
  = Return (127, "", "PowerShell executable not found at: powershell") /\
  fst (@run_powershell cpython slow_machine ps_query_winsat_json 30)
  = Return (124, "", "PowerShell timed out after 30 seconds.") /\
  length (snd (@run_powershell cpython slow_machine ps_query_winsat_json 30)) = 1%nat.
Proof.
  refine (conj _ (conj _ _)).
  - apply (proj1 (@run_powershell_sentinels cpython bare_machine ps_query_winsat_json 30)).
    vm_compute. reflexivity.
  - apply (proj1 (proj2 (@run_powershell_sentinels cpython slow_machine
                           ps_query_winsat_json 30))).
    vm_compute. reflexivity.
  - rewrite (proj2 (proj2 (proj2 (@run_powershell_sentinels cpython slow_machine
                                    ps_query_winsat_json 30)))).
    reflexivity.
Defined.

(** The query handler on the four failing samples of the specification. *)
Lemma handle_query_result_failures_witness :
  filter is_notice (@_handle_query_result cpython 0 "" "")
  = [failure_notice EmptyOutput] /\
  filter is_notice (@_handle_query_result cpython 0 "not json" "")
  = [failure_notice (ParseError "Expecting value: line 1 column 1 (char 0)")] /\
  filter is_notice (@_handle_query_result cpython 0 "[]" "")
  = [failure_notice (ParseError "Unexpected JSON structure (not an object).")] /\
  filter is_notice (@_handle_query_result cpython 0 "42" "")
  = [failure_notice (ParseError "Unexpected JSON structure (not an object).")] /\
  ready (exec (@_handle_query_result cpython 0 "not json" "") refreshing_again) = true.
Proof.
  refine (conj _ (conj _ (conj _ (conj _ _)))).
  - apply (proj1 (proj2 (@handle_query_result_failures cpython "" ""))). reflexivity.
  - apply (proj1 (proj2 (proj2 (proj2 (proj2
             (@handle_query_result_failures cpython "not json" "")))))).
    vm_compute. reflexivity.
  - apply (proj1 (proj2 (proj2 (proj2 (proj2 (proj2
             (@handle_query_result_failures cpython "[]" ""))))))).
    vm_compute. reflexivity.
  - apply (proj1 (proj2 (proj2 (proj2 (proj2 (proj2 (proj2
             (@handle_query_result_failures cpython "42" "")))))))).
    vm_compute. reflexivity.
  - apply (proj2 (proj2 (proj2 (proj2 (proj2 (proj2 (proj2
             (@handle_query_result_failures cpython "not json" "")))))))).
Defined.

(** A list of two records against its first record alone. *)
Lemma list_output_uses_first_witness :
  @parse_and_apply cpython two_records_json = @parse_and_apply cpython first_record_json /\
  displays_scores (@parse_and_apply cpython two_records_json) = true.
Proof.
  assert (H : @json_loads cpython two_records_json
              = Return (PList [PDict [("CPUScore", PInt 7)]; PDict [("CPUScore", PInt 3)]])).
  { vm_compute. reflexivity. }
  assert (H1 : @json_loads cpython first_record_json
               = Return (PDict [("CPUScore", PInt 7)])).
  { vm_compute. reflexivity. }
  destruct (@list_output_uses_first cpython two_records_json first_record_json
              [("CPUScore", PInt 7)] [PDict [("CPUScore", PInt 3)]] "" H H1)
    as (Heq & Hshow & _).
  split; assumption.
Defined.

(** The rows for a zero score, an absent score, a string and a state
    [int] rejects. *)
Lemma apply_scores_rows_witness :
  fields (exec (@_apply_scores cpython zero_score) init) !! "CPUScore" = Some "0" /\
  fields (exec (@_apply_scores cpython zero_score) init) !! "MemoryScore" = Some "-" /\
  fields (exec (@_apply_scores cpython zero_score) init) !! "TimeTaken" = Some "noon" /\
  fields (exec (@_apply_scores cpython zero_score) init) !! "WinSATAssessmentState"
  = Some "abc".
Proof.
  refine (conj _ (conj _ (conj _ _))).
  - apply (proj1 (proj2 (proj2 (@apply_scores_rows cpython zero_score init
                                  "CPUScore" "CPUScore" ltac:(simpl; tauto))))).
    + vm_compute. discriminate.
    + vm_compute. discriminate.
  - apply (proj1 (@apply_scores_rows cpython zero_score init
                    "MemoryScore" "MemoryScore" ltac:(simpl; tauto))).
    vm_compute. reflexivity.
  - apply (proj1 (proj2 (proj2 (@apply_scores_rows cpython zero_score init
                                  "TimeTaken" "TimeTaken" ltac:(simpl; tauto))))).
    + vm_compute. discriminate.
    + vm_compute. discriminate.
  - apply (proj1 (proj2 (proj2 (proj2 (@apply_scores_rows cpython zero_score init
                                         "WinSATAssessmentState" "WinSATAssessmentState"
                                         ltac:(simpl; tauto)))))).
    + vm_compute. discriminate.
    + reflexivity.
Defined.

(** Copy when ready with stored output, when busy, and when ready with
    nothing stored. *)
Lemma copy_json_when_ready_witness :
  clipboard (@step cpython after_first_query (Click copy_btn)) = "{}" /\
  @step cpython refreshing_again (Click copy_btn) = refreshing_again /\
  @step cpython init (Click copy_btn)
  = perform init (ShowInfo APP_TITLE "No JSON available yet. Click Refresh first.").
Proof.
  refine (conj _ (conj _ _)).
  - apply (proj1 (proj2 (@copy_json_when_ready cpython after_first_query))
             ltac:(vm_compute; reflexivity) "{}" ltac:(vm_compute; reflexivity)
             ltac:(discriminate)).
  - apply (proj1 (@copy_json_when_ready cpython refreshing_again)).
    vm_compute. reflexivity.
  - apply (proj1 (proj2 (proj2 (@copy_json_when_ready cpython init)))).
    + vm_compute. reflexivity.
    + left. reflexivity.
Defined.

(** A second query that returns text [json.loads] rejects replaces the
    stored [{}], and Copy then copies the rejected text. *)
Lemma raw_json_set_before_parse_witness :
  raw_json refreshing_again = Some "{}" /\
  raw_json (exec (@_handle_query_result cpython 0 "not json" "") refreshing_again)
  = Some "not json" /\
  clipboard (@step cpython
               (exec (@_handle_query_result cpython 0 "not json" "") refreshing_again)
               (Click copy_btn))
  = "not json".
Proof.
  refine (conj _ (conj _ _)).
  - vm_compute. reflexivity.
  - apply (proj1 (proj2 (@raw_json_set_before_parse cpython "not json" ""
                           ltac:(discriminate)))).
  - apply (proj2 (proj2 (@raw_json_set_before_parse cpython "not json" ""
                           ltac:(discriminate)))
             refreshing_again "Expecting value: line 1 column 1 (char 0)").
    vm_compute. reflexivity.
Defined.

(** ** Where the claims as stated fail *)

(** C6 as stated fails on [{"CPUScore": null, "WinSATAssessmentState": 1}]:
    both keys are present, yet the CPUScore row shows the placeholder
    where [str] of the value is ["None"], and the state row shows the
    decoded label where [str] of the value is ["1"]. *)
Lemma apply_scores_null_and_state :
  @json_loads cpython null_score_json = Return (PDict null_score) /\
  @dict_has cpython null_score "CPUScore" = true /\
  fields (exec (@_apply_scores cpython null_score) init) !! "CPUScore" = Some "-" /\
  @py_str cpython (@dict_get cpython null_score "CPUScore") = "None" /\
  @dict_has cpython null_score "WinSATAssessmentState" = true /\
  fields (exec (@_apply_scores cpython null_score) init) !! "WinSATAssessmentState"
  = Some "1 (Valid/Completed)" /\
  @py_str cpython (@dict_get cpython null_score "WinSATAssessmentState") = "1" /\
  ~ (forall (obj : list (string * pyval (@float cpython))) (ui_label key : string),
       In (ui_label, key) mapping -> @dict_has cpython obj key = true ->
       fields (exec (@_apply_scores cpython obj) init) !! ui_label
       = Some (@py_str cpython (@dict_get cpython obj key))).
Proof.
  assert (Hcpu : fields (exec (@_apply_scores cpython null_score) init) !! "CPUScore"
                 = Some "-").
  { rewrite (@fields_apply_scores cpython null_score init "CPUScore" "CPUScore")
      by (simpl; tauto).
    reflexivity. }
  assert (Hstate : fields (exec (@_apply_scores cpython null_score) init)
                     !! "WinSATAssessmentState" = Some "1 (Valid/Completed)").
  { rewrite (@fields_apply_scores cpython null_score init
               "WinSATAssessmentState" "WinSATAssessmentState") by (simpl; tauto).
    reflexivity. }
  refine (conj _ (conj _ (conj Hcpu (conj _ (conj _ (conj Hstate (conj _ _))))))).
  - vm_compute. reflexivity.
  - reflexivity.
  - reflexivity.
  - reflexivity.
  - reflexivity.
  - intros H.
    specialize (H null_score "CPUScore" "CPUScore" ltac:(simpl; tauto) eq_refl).
    rewrite Hcpu in H. discriminate H.
Qed.

(** C8 as stated fails in a state the event loop reaches: after the
    first query has returned [{}] and Refresh was clicked again, raw
    output is stored, but the window is busy, the Copy button is disabled
    and a click on it leaves the clipboard empty. *)
Lemma copy_json_disabled_while_busy :
  raw_json refreshing_again = Some "{}" /\
  busy refreshing_again = true /\
  copy_normal refreshing_again = false /\
  @step cpython refreshing_again (Click copy_btn) = refreshing_again /\
  clipboard (@step cpython refreshing_again (Click copy_btn)) = "" /\
  ~ (forall es s, raw_json (@run cpython init es) = Some s -> s <> "" ->
       clipboard (@step cpython (@run cpython init es) (Click copy_btn)) = s).
Proof.
  assert (Hreach : @run cpython init
                     [StartupTimer; Callback refresh_worker 0 "{}" ""; Click refresh_btn]
                   = refreshing_again).
  { vm_compute. reflexivity. }
  assert (Hsame : @step cpython refreshing_again (Click copy_btn) = refreshing_again).
  { vm_compute. reflexivity. }
  assert (Hraw : raw_json refreshing_again = Some "{}").
  { vm_compute. reflexivity. }
  assert (Hclip : clipboard refreshing_again = "").
  { vm_compute. reflexivity. }
  refine (conj Hraw (conj _ (conj _ (conj Hsame (conj _ _))))).
  - vm_compute. reflexivity.
  - vm_compute. reflexivity.
  - rewrite Hsame. exact Hclip.
  - intros H.
    specialize (H [StartupTimer; Callback refresh_worker 0 "{}" ""; Click refresh_btn] "{}").
    rewrite Hreach, Hsame, Hclip in H.
    specialize (H Hraw ltac:(discriminate)). discriminate H.
Qed.

(** * Further properties of the code *)

(** ** The resolver, the invoker and the decoder *)

Lemma string_app_assoc (a b c : string) : (a ++ b) ++ c = a ++ (b ++ c).
Proof.
  induction a as [|x a IH]; [reflexivity|].
  change (String x ((a ++ b) ++ c) = String x (a ++ (b ++ c))). now f_equal.
Qed.

Lemma string_app_nil_r (a : string) : a ++ "" = a.
Proof.
  induction a as [|x a IH]; [reflexivity|].
  change (String x (a ++ "") = String x a). now f_equal.
Qed.

Lemma string_app_inv_tail (a b s : string) : a ++ s = b ++ s -> a = b.
Proof.
  intros H. apply (f_equal list_ascii_of_string) in H.
  rewrite !list_ascii_app in H. apply app_inv_tail in H.
  rewrite <- (string_of_list_ascii_of_string a), <- (string_of_list_ascii_of_string b).
  now rewrite H.
Qed.

Lemma ends_with_app (a suffix : string) : ends_with suffix (a ++ suffix) = true.
Proof.
  unfold ends_with. rewrite list_ascii_app, rev_app_distr. apply starts_with_app.
Qed.

Section PureFacts.

Context {py : Python} {host : Host}.

(** X1: the path the resolver returns is the bare command name or a path
    that [os.path.exists] accepted. *)
Theorem resolved_path_exists_or_bare :
  resolve_powershell_path = "powershell" \/ path_exists resolve_powershell_path = true.
Proof.
  unfold resolve_powershell_path.
  set (p32 := path_join _ ("System32" :: _)).
  set (pn := path_join _ ("Sysnative" :: _)).
  destruct (path_exists p32) eqn:H32; [right; exact H32|].
  destruct (path_exists pn) eqn:Hn; [right; exact Hn|].
  left. reflexivity.
Qed.

(** [run_powershell] raises exactly when [subprocess.run] raises
    something other than [FileNotFoundError] and [TimeoutExpired], and
    then with that exception; in every other case it returns a triple. *)
Theorem run_powershell_raises (ps_script : string) (timeout_sec : Z) (msg : string) :
  fst (run_powershell ps_script timeout_sec) = Raise msg <->
  subprocess_run (argv ps_script) timeout_sec = OtherError msg.
Proof.
  unfold run_powershell, spawn, proc_bind, proc_ret, argv. simpl.
  destruct (subprocess_run _ timeout_sec) as [rc o e| | |m]; split; intros H;
    try discriminate H; congruence.
Qed.

(** The label of an integer state is its decimal form, a space and a
    meaning in parentheses. *)
Lemma decode_label_format (v : pyval float) (iv : Z) :
  py_int v = Some iv ->
  exists meaning, decode_assessment_state v = pretty iv ++ " (" ++ meaning ++ ")".
Proof.
  intros H. unfold decode_assessment_state. rewrite H.
  destruct (Z.eqb_spec iv 1) as [->|_]; [exists "Valid/Completed"; reflexivity|].
  destruct (Z.eqb_spec iv 0) as [->|_]; [exists "Not run/Unknown"; reflexivity|].
  exists "Unknown meaning". reflexivity.
Qed.

(** X3: the label of an input that [int] converts depends on the
    integer alone and keeps integers apart: two such inputs get the same
    label exactly when they convert to the same integer. *)
Theorem decode_label_determines_state (v w : pyval float) (a b : Z) :
  py_int v = Some a -> py_int w = Some b ->
  (decode_assessment_state v = decode_assessment_state w <-> a = b).
Proof.
  intros Hv Hw. unfold decode_assessment_state. rewrite Hv, Hw.
  split; [|intros ->; reflexivity].
  assert (Hu1 : forall x : Z, pretty x ++ " (Unknown meaning)" <> "1 (Valid/Completed)").
  { intros x H.
    pose proof (ends_with_app (pretty x) " (Unknown meaning)") as E.
    rewrite H in E. discriminate E. }
  assert (Hu0 : forall x : Z, pretty x ++ " (Unknown meaning)" <> "0 (Not run/Unknown)").
  { intros x H.
    pose proof (ends_with_app (pretty x) " (Unknown meaning)") as E.
    rewrite H in E. discriminate E. }
  destruct (Z.eqb_spec a 1) as [->|Ha1]; destruct (Z.eqb_spec b 1) as [->|Hb1];
    try reflexivity.
  - destruct (Z.eqb_spec b 0) as [->|Hb0]; [discriminate|].
    intros H. symmetry in H. destruct (Hu1 b H).
  - destruct (Z.eqb_spec a 0) as [->|Ha0]; [discriminate|].
    intros H. destruct (Hu1 a H).
  - destruct (Z.eqb_spec a 0) as [->|Ha0]; destruct (Z.eqb_spec b 0) as [->|Hb0];
      try reflexivity.
    + intros H. symmetry in H. destruct (Hu0 b H).
    + intros H. destruct (Hu0 a H).
    + intros H. apply string_app_inv_tail in H. apply (inj pretty) in H. exact H.
Qed.

End PureFacts.

(** A string with blanks and the integer 7 share a label; [true], which
    converts to 1, and the integer 2 do not. *)
Lemma decode_label_determines_state_witness :
  @decode_assessment_state cpython (PStr " 7 ") = @decode_assessment_state cpython (PInt 7) /\
  @decode_assessment_state cpython (PBool true) <> @decode_assessment_state cpython (PInt 2).
Proof.
  split.
  - apply (@decode_label_determines_state cpython (PStr " 7 ") (PInt 7) 7 7).
    + vm_compute. reflexivity.
    + reflexivity.
    + reflexivity.
  - intros H.
    apply (@decode_label_determines_state cpython (PBool true) (PInt 2) 1 2) in H.
    + lia.
    + reflexivity.
    + reflexivity.
Defined.

(** ** The window, component by component *)

Lemma text_exec (acts : list action) (g : gui) :
  text (exec acts g) = log_text acts (text g).
Proof.
  revert g. induction acts as [|a acts IH]; intros g; [reflexivity|].
  rewrite exec_cons, IH. destruct a; try reflexivity. destruct b; reflexivity.
Qed.

Lemma fields_exec (acts : list action) (g : gui) :
  fields (exec acts g) = set_rows acts (fields g).
Proof.
  revert g. induction acts as [|a acts IH]; intros g; [reflexivity|].
  rewrite exec_cons, IH. destruct a; try reflexivity. destruct b; reflexivity.
Qed.

Lemma shown_exec (acts : list action) (g : gui) :
  shown (exec acts g) = (shown g ++ notices acts)%list.
Proof.
  revert g. induction acts as [|a acts IH]; intros g.
  - simpl. now rewrite app_nil_r.
  - rewrite exec_cons, IH. destruct a; try reflexivity.
    + destruct b; reflexivity.
    + simpl. now rewrite <- app_assoc.
    + simpl. now rewrite <- app_assoc.
Qed.

Lemma log_text_app (a b : list action) (t : string) :
  log_text (a ++ b) t = log_text b (log_text a t).
Proof. apply fold_left_app. Qed.

Lemma set_rows_app (a b : list action) (m : gmap string string) :
  set_rows (a ++ b) m = set_rows b (set_rows a m).
Proof. apply fold_left_app. Qed.

Lemma set_rows_none (acts : list action) (m : gmap string string) :
  existsb is_field_set acts = false -> set_rows acts m = m.
Proof.
  revert m. induction acts as [|a acts IH]; intros m H; [reflexivity|].
  simpl in H. apply orb_false_iff in H as [Ha H].
  destruct a; try discriminate Ha; change (set_rows acts m = m); apply IH, H.
Qed.

(** Without a deletion the text only grows, by what the method inserts. *)
Lemma log_text_grows (acts : list action) (t : string) :
  existsb is_text_delete acts = false -> log_text acts t = t ++ log_text acts "".
Proof.
  revert t. induction acts as [|a acts IH]; intros t H.
  - simpl. now rewrite string_app_nil_r.
  - simpl in H. apply orb_false_iff in H as [Ha H].
    destruct a; try discriminate Ha;
      try (change (log_text acts t = t ++ log_text acts ""); apply IH, H).
    change (log_text acts (t ++ s) = t ++ log_text acts ("" ++ s)).
    rewrite (IH (t ++ s) H), (IH ("" ++ s) H). simpl. apply string_app_assoc.
Qed.

Lemma status_frame (acts : list action) (g : gui) :
  existsb is_status_set acts = false -> status_var (exec acts g) = status_var g.
Proof.
  apply (exec_frame status_var is_status_set).
  intros a g' H. destruct a; try reflexivity; try discriminate H.
  destruct b; reflexivity.
Qed.

Lemma cursor_frame (acts : list action) (g : gui) :
  existsb is_cursor_set acts = false -> cursor (exec acts g) = cursor g.
Proof.
  apply (exec_frame cursor is_cursor_set).
  intros a g' H. destruct a; try reflexivity; try discriminate H.
  destruct b; reflexivity.
Qed.

Lemma clipboard_frame (acts : list action) (g : gui) :
  existsb is_clipboard acts = false -> clipboard (exec acts g) = clipboard g.
Proof.
  apply (exec_frame clipboard is_clipboard).
  intros a g' H. destruct a; try reflexivity; try discriminate H.
  destruct b; reflexivity.
Qed.

(** X4: of two calls of [_set_busy] in a row only the second shows: the
    status line, the three buttons and the cursor are as after the second
    alone, and the stored output, the log, the rows, the clipboard, the
    notices and the threads are as before the first. *)
Theorem set_busy_last_wins (b b' : bool) (msg msg' : string) (g : gui) :
  exec (_set_busy b msg) (exec (_set_busy b' msg') g) = exec (_set_busy b msg) g /\
  status_var (exec (_set_busy b msg) g)
  = str_or msg (if b then "Working…" else "Ready.") /\
  (forall k, button_normal (exec (_set_busy b msg) g) k = negb b) /\
  cursor (exec (_set_busy b msg) g) = (if b then "watch" else "") /\
  raw_json (exec (_set_busy b msg) g) = raw_json g /\
  text (exec (_set_busy b msg) g) = text g /\
  fields (exec (_set_busy b msg) g) = fields g /\
  clipboard (exec (_set_busy b msg) g) = clipboard g /\
  shown (exec (_set_busy b msg) g) = shown g /\
  threads (exec (_set_busy b msg) g) = threads g.
Proof.
  destruct g as [rj sv rn un cn cu tx fs cb sh th st].
  split; [destruct b, b'; reflexivity|].
  split; [destruct b; reflexivity|].
  split; [intros k; destruct b, k; reflexivity|].
  destruct b; repeat split.
Qed.

Lemma set_busy_status (b : bool) (msg : string) (g : gui) :
  status_var (exec (_set_busy b msg) g) = str_or msg (if b then "Working…" else "Ready.").
Proof. destruct g, b; reflexivity. Qed.

Lemma set_busy_cursor (b : bool) (msg : string) (g : gui) :
  cursor (exec (_set_busy b msg) g) = (if b then "watch" else "").
Proof. destruct g, b; reflexivity. Qed.

(** ** The callbacks *)

Section Callbacks.

Context {py : Python}.

Ltac branches :=
  repeat match goal with
    | |- context [match json_loads ?o with _ => _ end] => destruct (json_loads o) eqn:?
    | |- context [match first_of_list ?o with _ => _ end] => destruct (first_of_list o) eqn:?
    | |- context [if ?c then _ else _] => destruct c eqn:?
    end.

Lemma parse_and_apply_no_delete (out : string) :
  existsb is_text_delete (parse_and_apply out) = false.
Proof. unfold parse_and_apply. branches; reflexivity. Qed.

Lemma parse_and_apply_no_clipboard (out : string) :
  existsb is_clipboard (parse_and_apply out) = false.
Proof. unfold parse_and_apply. branches; reflexivity. Qed.

Lemma thread_callback_no_delete (j : job) (rc : Z) (out err : string) :
  existsb is_text_delete (thread_callback j rc out err) = false.
Proof.
  assert (Hq : existsb is_text_delete (_handle_query_result rc out err) = false).
  { unfold _handle_query_result.
    rewrite existsb_app. apply orb_false_iff. split; [|reflexivity].
    branches; try reflexivity.
    rewrite !existsb_app, parse_and_apply_no_delete. reflexivity. }
  destruct j; simpl; try exact Hq.
  unfold run_assessment_done. branches; reflexivity.
Qed.

(** X5: a callback never deletes from the log: after the query handler
    or the assessment callback the log is the text it was, followed by
    what the callback inserted, and what it inserts does not depend on
    the window. *)
Theorem callback_appends_to_log (j : job) (rc : Z) (out err : string) (g : gui) :
  text (exec (thread_callback j rc out err) g)
  = text g ++ log_text (thread_callback j rc out err) "".
Proof.
  rewrite text_exec. apply log_text_grows, thread_callback_no_delete.
Qed.

(** X6: starting a query or an assessment discards the log: after a
    click on an enabled Refresh or Run button, or after the pending
    startup timer, the log holds the opening lines of the new thread and
    nothing of the text before. *)
Theorem new_run_discards_log (g : gui) :
  (refresh_normal g = true ->
   text (step g (Click refresh_btn)) = "Querying Win32_WinSAT via PowerShell…" ++ LF) /\
  (run_normal g = true ->
   text (step g (Click run_btn))
   = "Running: winsat formal …" ++ LF ++
     "Note: this can take a while and may require Administrator privileges." ++ LF ++ LF) /\
  (startup_timer g = true ->
   text (step g StartupTimer) = "Querying Win32_WinSAT via PowerShell…" ++ LF).
Proof.
  unfold step. simpl button_normal.
  split; [|split]; intros ->; rewrite text_exec; reflexivity.
Qed.

Lemma handle_query_result_failed_effects (rc : Z) (out err : string) :
  rc <> 0 \/ out = "" ->
  existsb is_field_set (_handle_query_result rc out err) = false /\
  existsb is_raw_json_set (_handle_query_result rc out err) = false.
Proof.
  intros H. unfold _handle_query_result.
  destruct (Z.eqb_spec rc 0) as [E|N]; simpl negb; cbv iota.
  - destruct H as [H| ->]; [contradiction|]. split; reflexivity.
  - destruct (str_bool err), (str_bool out); split; reflexivity.
Qed.

(** X7: a query that fails leaves the display as it was: on a non-zero
    exit status or an empty output the eight rows, the stored raw output
    and the clipboard are unchanged, and on exit status 0 with output
    that yields no score record the rows and the clipboard are unchanged
    (the stored raw output is then the new text). *)
Theorem failed_query_keeps_rows (rc : Z) (out err : string) (g : gui) :
  let g' := exec (_handle_query_result rc out err) g in
  (rc <> 0 \/ out = "" -> fields g' = fields g /\ raw_json g' = raw_json g) /\
  (displays_scores (_handle_query_result rc out err) = false -> fields g' = fields g) /\
  clipboard g' = clipboard g.
Proof.
  intros g'. subst g'. split; [|split].
  - intros H. destruct (handle_query_result_failed_effects rc out err H) as [Hf Hr].
    split; [apply fields_frame, Hf|apply raw_json_frame, Hr].
  - intros H. apply fields_frame, H.
  - apply clipboard_frame. unfold _handle_query_result.
    rewrite existsb_app. apply orb_false_iff. split; [|reflexivity].
    branches; try reflexivity.
    rewrite !existsb_app, parse_and_apply_no_clipboard. reflexivity.
Qed.

(** X8: the status line after a callback: after the query handler it
    reads ["Ready."] on every path, so the ["WinSAT scores updated."] a
    successful query sets is replaced by the [finally] clause before the
    handler returns; after a failed assessment it reads ["Ready."], and
    after a successful one ["Re-querying Win32_WinSAT…"]. *)
Theorem status_after_callback (rc : Z) (out err : string) (g : gui) :
  status_var (exec (_handle_query_result rc out err) g) = "Ready." /\
  (displays_scores (_handle_query_result rc out err) = true ->
   In (StatusSet "WinSAT scores updated.") (_handle_query_result rc out err)) /\
  (rc <> 0 -> status_var (exec (run_assessment_done rc out err) g) = "Ready.") /\
  status_var (exec (run_assessment_done 0 out err) g) = "Re-querying Win32_WinSAT…".
Proof.
  split; [|split; [|split]].
  - unfold _handle_query_result. rewrite exec_app. apply set_busy_status.
  - unfold _handle_query_result, displays_scores.
    destruct (Z.eqb_spec rc 0) as [E|N]; simpl negb; cbv iota.
    + destruct (str_bool out); simpl negb; cbv iota; [|discriminate].
      unfold parse_and_apply.
      destruct (json_loads out) as [obj|e]; [|discriminate].
      destruct (first_of_list obj); try discriminate.
      intros _. rewrite !in_app_iff. left. right. right. right. right. left. reflexivity.
    + destruct (str_bool err), (str_bool out); discriminate.
  - intros Hrc. unfold run_assessment_done.
    destruct (Z.eqb_spec rc 0) as [E|_]; [contradiction|]. simpl negb. cbv iota.
    rewrite !app_assoc, exec_app. apply set_busy_status.
  - rewrite run_assessment_done_zero. rewrite app_assoc, exec_app.
    rewrite status_frame by reflexivity.
    rewrite exec_app. apply set_busy_status.
Qed.

End Callbacks.

(** ** Invariants of the event loop *)

Section Invariants.

Context {py : Python}.

Lemma run_invariant (P : gui -> Prop) :
  (forall g e, P g -> P (step g e)) -> forall es g, P g -> P (run g es).
Proof.
  intros Hstep es. induction es as [|e es IH]; intros g H; [assumption|].
  apply IH, Hstep, H.
Qed.

Lemma thread_callback_cursor (j : job) (rc : Z) (out err : string) (g : gui) :
  buttons_match_cursor (exec (thread_callback j rc out err) g).
Proof.
  assert (Hq : buttons_match_cursor (exec (_handle_query_result rc out err) g)).
  { left. split; [apply handle_query_result_ready|].
    unfold _handle_query_result. rewrite exec_app. apply set_busy_cursor. }
  destruct j; simpl; try exact Hq.
  destruct (Z.eq_dec rc 0) as [->|N].
  - right. split; [apply assessment_succeeded|].
    rewrite run_assessment_done_zero, app_assoc, exec_app.
    rewrite cursor_frame by reflexivity.
    rewrite exec_app. apply set_busy_cursor.
  - left. split; [apply (assessment_failed rc out err N)|].
    unfold run_assessment_done.
    destruct (Z.eqb_spec rc 0) as [E|_]; [contradiction|]. simpl negb. cbv iota.
    rewrite !app_assoc, exec_app. apply set_busy_cursor.
Qed.

Lemma copy_json_cursor (g g0 : gui) : cursor (exec (copy_json g) g0) = cursor g0.
Proof.
  apply cursor_frame. unfold copy_json.
  destruct (raw_json g) as [[|c r]|]; reflexivity.
Qed.

Lemma step_buttons_match_cursor (g : gui) (e : event) :
  buttons_match_cursor g -> buttons_match_cursor (step g e).
Proof.
  intros H. destruct e as [b| |j rc out err]; unfold step.
  - destruct (button_normal g b) eqn:Hn; [|assumption].
    destruct b; simpl command.
    + right. split; [apply refresh_scores_busy|].
      unfold refresh_scores. rewrite exec_app, cursor_frame by reflexivity.
      apply set_busy_cursor.
    + right. split; [apply run_assessment_busy|].
      unfold run_assessment. rewrite exec_app, cursor_frame by reflexivity.
      apply set_busy_cursor.
    + destruct (copy_json_quiet g g) as [Hb _].
      unfold buttons_match_cursor. rewrite copy_json_cursor.
      destruct H as [[H Hc]|[H Hc]]; [left|right]; (split; [|assumption]).
      * apply ready_iff. intros k. rewrite Hb. apply ready_iff, H.
      * apply busy_iff. intros k. rewrite Hb. apply busy_iff, H.
  - destruct (startup_timer g); [|assumption].
    right. split; [apply refresh_scores_busy|].
    unfold refresh_scores. rewrite exec_app, cursor_frame by reflexivity.
    apply set_busy_cursor.
  - destruct (existsb (job_eqb j) (threads g)); [|assumption].
    apply thread_callback_cursor.
Qed.

(** X9: in every state the event loop reaches, the three buttons are
    enabled together under the default cursor or disabled together under
    the watch cursor: no button is ever enabled while another is
    disabled, and the cursor tells which of the two it is. *)
Theorem reachable_buttons_match_cursor (es : list event) :
  buttons_match_cursor (run init es).
Proof.
  apply run_invariant; [apply step_buttons_match_cursor|].
  left. split; reflexivity.
Qed.

Lemma handle_query_result_raw_json (rc : Z) (out err : string) (g : gui) :
  raw_json (exec (_handle_query_result rc out err) g) = raw_json g \/
  (raw_json (exec (_handle_query_result rc out err) g) = Some out /\ out <> "").
Proof.
  destruct (Z.eq_dec rc 0) as [->|N].
  - destruct out as [|c r].
    + left. apply raw_json_frame. reflexivity.
    + right. split; [|discriminate].
      rewrite handle_query_result_parse by discriminate.
      rewrite exec_app, raw_json_frame by reflexivity.
      rewrite exec_app, raw_json_frame; [reflexivity|].
      rewrite !existsb_app, parse_and_apply_keeps_raw_json. reflexivity.
  - left. apply raw_json_frame.
    apply (handle_query_result_failed_effects rc out err). left. exact N.
Qed.

Lemma step_raw_json (g : gui) (e : event) :
  raw_json (step g e) = raw_json g \/
  (exists out, raw_json (step g e) = Some out /\ out <> "").
Proof.
  destruct e as [b| |j rc out err]; unfold step.
  - destruct (button_normal g b); [|left; reflexivity].
    left. apply raw_json_frame.
    destruct b; simpl command; try reflexivity.
    unfold copy_json. destruct (raw_json g) as [[|c r]|]; reflexivity.
  - destruct (startup_timer g); [|left; reflexivity].
    left. rewrite raw_json_frame by reflexivity. reflexivity.
  - destruct (existsb (job_eqb j) (threads g)); [|left; reflexivity].
    assert (Hq : forall g0, raw_json g0 = raw_json g ->
              raw_json (exec (_handle_query_result rc out err) g0) = raw_json g \/
              (exists o, raw_json (exec (_handle_query_result rc out err) g0) = Some o
                         /\ o <> "")).
    { intros g0 H0.
      destruct (handle_query_result_raw_json rc out err g0) as [H|[H Hne]].
      - left. congruence.
      - right. eauto. }
    destruct j; simpl thread_callback; try (apply Hq; reflexivity).
    left. rewrite raw_json_frame; [reflexivity|].
    unfold run_assessment_done.
    destruct (negb (rc =? 0)%Z), (str_bool err), (str_bool out); reflexivity.
Qed.

(** X10: the stored raw output is never the empty string: in every
    state the event loop reaches, [raw_json] is [None] or a non-empty
    text, so Copy shows its notice only while nothing was stored yet. *)
Theorem reachable_raw_json_nonempty (es : list event) :
  raw_json (run init es) <> Some "" /\
  (ready (run init es) = true -> raw_json (run init es) <> None ->
   shown (step (run init es) (Click copy_btn)) = shown (run init es)).
Proof.
  assert (H : raw_json (run init es) <> Some "").
  { apply (run_invariant (fun g => raw_json g <> Some "")); [|discriminate].
    intros g e Hg. destruct (step_raw_json g e) as [->|(o & -> & Hne)]; [assumption|].
    intros E. injection E as ->. contradiction. }
  split; [assumption|].
  intros Hr Hsome. unfold step. simpl button_normal.
  rewrite (proj1 (ready_iff _) Hr copy_btn : copy_normal (run init es) = true).
  rewrite shown_exec. unfold command, copy_json.
  destruct (raw_json (run init es)) as [[|c r]|]; try contradiction.
  simpl. apply app_nil_r.
Qed.

Lemma set_rows_labels (F : string -> string) (rows : list (string * string))
  (m : gmap string string) (l : string) :
  is_Some (set_rows (map (fun lk : string * string =>
                            let '(ui_label, key) := lk in FieldSet ui_label (F key)) rows) m
           !! l)
  <-> In l (map fst rows) \/ is_Some (m !! l).
Proof.
  revert m. induction rows as [|[ui key] rows IH]; intros m.
  - simpl. tauto.
  - change (is_Some (set_rows (map (fun lk : string * string =>
                                      let '(ui_label, key) := lk in
                                      FieldSet ui_label (F key)) rows)
                              (<[ui := F key]> m) !! l)
            <-> In l (map fst ((ui, key) :: rows)) \/ is_Some (m !! l)).
    rewrite IH, lookup_insert_is_Some. simpl.
    destruct (decide (ui = l)) as [->|N]; tauto.
Qed.

Lemma handle_query_result_rows (rc : Z) (out err : string) (m : gmap string string) :
  set_rows (_handle_query_result rc out err) m = m \/
  exists d, set_rows (_handle_query_result rc out err) m = set_rows (_apply_scores d) m.
Proof.
  destruct (displays_scores (_handle_query_result rc out err)) eqn:Hd.
  - right. unfold _handle_query_result, displays_scores in *.
    destruct (Z.eqb_spec rc 0) as [E|N]; simpl negb in *; cbv iota in *.
    + destruct (str_bool out); simpl negb in *; cbv iota in *; [|discriminate Hd].
      unfold parse_and_apply in *.
      destruct (json_loads out) as [obj|e]; [|discriminate Hd].
      destruct (first_of_list obj); try discriminate Hd.
      exists d. rewrite !set_rows_app. reflexivity.
    + destruct (str_bool err), (str_bool out); discriminate Hd.
  - left. apply set_rows_none, Hd.
Qed.

Lemma step_fields (g : gui) (e : event) :
  fields (step g e) = fields g \/
  exists d, fields (step g e) = set_rows (_apply_scores d) (fields g).
Proof.
  destruct e as [b| |j rc out err]; unfold step.
  - destruct (button_normal g b); [|left; reflexivity].
    left. apply fields_frame.
    destruct b; simpl command; try reflexivity.
    unfold copy_json. destruct (raw_json g) as [[|c r]|]; reflexivity.
  - destruct (startup_timer g); [|left; reflexivity].
    left. rewrite fields_frame by reflexivity. reflexivity.
  - destruct (existsb (job_eqb j) (threads g)); [|left; reflexivity].
    rewrite fields_exec. change (fields (with_threads _ g)) with (fields g).
    destruct j; simpl thread_callback; try apply handle_query_result_rows.
    left. apply set_rows_none. unfold run_assessment_done.
    destruct (negb (rc =? 0)%Z), (str_bool err), (str_bool out); reflexivity.
Qed.

(** Every label [_apply_scores] looks up in [self.fields] is one
    [_build_ui] created: the lookup at line 225, 228 or 230 never raises
    [KeyError] on the window as built. *)
Lemma mapping_labels_built (ui_label : string) :
  In ui_label (map fst mapping) -> In ui_label (map fst build_ui_fields).
Proof.
  simpl. intros H.
  repeat (destruct H as [<-|H]; [tauto|]).
  contradiction.
Qed.

(** X11: in every state the event loop reaches the window shows the
    eight rows [_build_ui] created and no other; every row
    [_apply_scores] writes is among them, so the lookup
    [self.fields[ui_label]] finds its row, and every row shown is one
    [_apply_scores] writes: no method adds a row, removes one or leaves
    one out of an update. *)
Theorem reachable_eight_rows (es : list event) :
  eight_rows (run init es) /\
  (forall ui_label key, In (ui_label, key) mapping ->
     is_Some (fields (run init es) !! ui_label)) /\
  (forall ui_label, is_Some (fields (run init es) !! ui_label) ->
     exists key, In (ui_label, key) mapping).
Proof.
  assert (H : eight_rows (run init es)).
  { apply run_invariant.
    - intros g e Hg l.
      destruct (step_fields g e) as [->|[d ->]]; [apply Hg|].
      unfold _apply_scores. rewrite set_rows_labels. specialize (Hg l).
      pose proof (mapping_labels_built l). tauto.
    - intros l. change (fields init) with initial_fields. unfold initial_fields.
      split.
      + intros [v Hv]. apply elem_of_list_to_map_2 in Hv.
        apply list_elem_of_In in Hv. apply in_map_iff. exists (l, v). auto.
      + intros Hin. apply in_map_iff in Hin as [[u k] [<- Hin]].
        simpl in Hin. simpl fst.
        repeat (destruct Hin as [Hin|Hin];
                [injection Hin as <- <-; vm_compute; eauto|]).
        contradiction. }
  split; [exact H|]. split.
  - intros ui_label key Hin. apply H, mapping_labels_built.
    apply in_map_iff. exists (ui_label, key). auto.
  - intros ui_label Hrow. apply H in Hrow. simpl in Hrow.
    repeat (destruct Hrow as [<-|Hrow]; [eexists; simpl; tauto|]).
    contradiction.
Qed.

(** X13: a busy period ends after at most two callbacks: in a gated
    busy state the callback of the thread in flight leaves the window
    ready with nothing in flight, or (after an assessment that exited
    with status 0) busy with the follow-up query alone in flight, whose
    callback then leaves the window ready with nothing in flight,
    whatever the two invocations returned. *)
Theorem busy_period_ends (g : gui) (j : job) (rc rc' : Z) (out err out' err' : string) :
  gated g -> threads g = [j] ->
  let g1 := step g (Callback j rc out err) in
  let g2 := step g1 (Callback refresh_after_assessment rc' out' err') in
  (ready g1 = true /\ threads g1 = []) \/
  (j = assessment_worker /\ rc = 0 /\ busy g1 = true /\
   threads g1 = [refresh_after_assessment] /\ ready g2 = true /\ threads g2 = []).
Proof.
  intros Hg Hth g1 g2.
  assert (E1 : g1 = exec (thread_callback j rc out err) (with_threads [] g)).
  { assert (Hjj : job_eqb j j = true) by (destruct j; reflexivity).
    unfold g1, step. rewrite Hth. simpl existsb. rewrite Hjj.
    rewrite remove_job_single. reflexivity. }
  assert (Hq : forall r o e g0, threads g0 = [] ->
            ready (exec (_handle_query_result r o e) g0) = true /\
            threads (exec (_handle_query_result r o e) g0) = []).
  { intros r o e g0 H0. split; [apply handle_query_result_ready|].
    rewrite threads_exec, handle_query_result_no_thread, H0. reflexivity. }
  destruct j; simpl thread_callback in E1.
  - left. rewrite E1. apply Hq. reflexivity.
  - destruct (Z.eq_dec rc 0) as [->|N].
    + right.
      destruct (assessment_succeeded out err) as (_ & _ & Hs).
      destruct (Hs (with_threads [] g)) as [Hb Ht]. rewrite <- E1 in Hb, Ht.
      simpl in Ht.
      split; [reflexivity|]. split; [reflexivity|]. split; [assumption|].
      split; [assumption|].
      subst g2. unfold step. rewrite Ht. simpl existsb. simpl remove_job.
      simpl thread_callback. apply Hq. reflexivity.
    + left. destruct (assessment_failed rc out err N) as (_ & _ & Hs).
      destruct (Hs (with_threads [] g)) as [Hr Ht]. rewrite <- E1 in Hr, Ht.
      split; assumption.
  - left. rewrite E1. apply Hq. reflexivity.
Qed.

(** X14: only a callback ends a busy period: in a gated busy state
    every click and every timer event leaves the window exactly as it
    is, and so does every sequence of them. *)
Theorem busy_window_waits_for_callback (g : gui) (es : list event) :
  gated g -> busy g = true -> forallb (fun e => negb (is_callback e)) es = true ->
  run g es = g.
Proof.
  intros [Ht _] Hb. induction es as [|e es IH]; intros Hes; [reflexivity|].
  simpl in Hes. apply andb_true_iff in Hes as [He Hes].
  change (run (step g e) es = g).
  assert (Hstep : step g e = g).
  { destruct e as [b| |j rc out err].
    - apply click_while_busy, Hb.
    - unfold step. rewrite Ht. reflexivity.
    - discriminate He. }
  rewrite Hstep. apply IH, Hes.
Qed.

End Invariants.

(** ** From the process to the window *)

Section EndToEnd.

Context {py : Python} {host : Host}.

Lemma thread_invocation_argv (j : job) :
  fst (thread_invocation j)
  = match subprocess_run (argv (fst (thread_script j))) (snd (thread_script j)) with
    | Completed rc stdout stderr => Return (rc, str_strip stdout, str_strip stderr)
    | FileNotFoundError =>
        Return (127, "", "PowerShell executable not found at: " ++ resolve_powershell_path)
    | TimeoutExpired =>
        Return (124, "", "PowerShell timed out after "
                         ++ pretty (snd (thread_script j)) ++ " seconds.")
    | OtherError msg => Raise msg
    end.
Proof.
  unfold thread_invocation, run_powershell, spawn, proc_bind, proc_ret, argv. simpl.
  destruct (subprocess_run _ _); reflexivity.
Qed.

(** X2: a thread hands no callback to the main loop exactly when
    [subprocess.run] raised an exception [run_powershell] does not
    catch; in every other case it posts one callback, carrying its own
    thread and the triple [run_powershell] returned. *)
Theorem thread_posts_unless_raised (j : job) :
  (thread_posts j = None <->
   exists msg,
     subprocess_run (argv (fst (thread_script j))) (snd (thread_script j)) = OtherError msg) /\
  (forall e, thread_posts j = Some e ->
   exists rc out err,
     e = Callback j rc out err /\ fst (thread_invocation j) = Return (rc, out, err)).
Proof.
  unfold thread_posts. rewrite thread_invocation_argv.
  destruct (subprocess_run _ _) as [rc o e'| | |m]; split;
    try (split; [discriminate|intros [m' H]; discriminate H]);
    try (intros e H; injection H as <-; eauto);
    try (split; [eauto|reflexivity]).
  intros e H. discriminate H.
Qed.

(** X15: a query on a machine without PowerShell: when [subprocess.run]
    reports the executable missing, the query thread posts the callback
    with status 127; handling it appends the exit status and the message
    naming the resolved path to the log, shows the one notice of a failed
    query, starts nothing, leaves the rows and the stored raw output
    alone and the window ready. *)
Theorem query_without_powershell (j : job) (g : gui) :
  j <> assessment_worker ->
  subprocess_run (argv ps_query_winsat_json) 30 = FileNotFoundError ->
  let msg := "PowerShell executable not found at: " ++ resolve_powershell_path in
  let acts := thread_callback j 127 "" msg in
  thread_posts j = Some (Callback j 127 "" msg) /\
  text (exec acts g)
  = text g ++ ("[ERROR] PowerShell exit code: 127" ++ LF) ++ (msg ++ LF) /\
  notices acts
  = [ShowError APP_TITLE ("Failed to query Win32_WinSAT." ++ LF ++ "See log for details.")] /\
  started acts = [] /\
  fields (exec acts g) = fields g /\ raw_json (exec acts g) = raw_json g /\
  ready (exec acts g) = true.
Proof.
  intros Hj Hrun msg acts.
  assert (Hacts : acts = _handle_query_result 127 "" msg).
  { subst acts. destruct j; try reflexivity. contradiction. }
  assert (Hs : thread_script j = (ps_query_winsat_json, 30)).
  { destruct j; try reflexivity. contradiction. }
  split; [|rewrite Hacts; split; [|split; [|split; [|split; [|split]]]]].
  - unfold thread_posts. rewrite thread_invocation_argv, Hs. simpl fst. simpl snd.
    rewrite Hrun. reflexivity.
  - rewrite text_exec, log_text_grows by reflexivity. reflexivity.
  - reflexivity.
  - apply handle_query_result_no_thread.
  - apply fields_frame. reflexivity.
  - apply raw_json_frame. reflexivity.
  - apply handle_query_result_ready.
Qed.

(** X16: an assessment that runs past its ten minutes: when
    [subprocess.run] reports the timeout, the assessment thread posts the
    callback with status 124 and the message of 600 seconds; handling it
    logs both, shows the one notice of a failed assessment, starts no
    follow-up query and leaves the window ready. *)
Theorem assessment_timeout_ends_chain (g : gui) :
  subprocess_run (argv ps_run_winsat_assessment) 600 = TimeoutExpired ->
  let msg := "PowerShell timed out after 600 seconds." in
  let acts := thread_callback assessment_worker 124 "" msg in
  thread_posts assessment_worker = Some (Callback assessment_worker 124 "" msg) /\
  text (exec acts g) = text g ++ ("[ERROR] WinSAT exit code: 124" ++ LF) ++ (msg ++ LF) /\
  started acts = [] /\
  length (notices acts) = 1%nat /\
  ready (exec acts g) = true.
Proof.
  intros Hrun msg acts.
  split; [|split; [|split; [|split]]].
  - unfold thread_posts. rewrite thread_invocation_argv. simpl fst. simpl snd.
    rewrite Hrun. reflexivity.
  - rewrite text_exec, log_text_grows by reflexivity. reflexivity.
  - reflexivity.
  - reflexivity.
  - apply (assessment_failed 124 "" msg). discriminate.
Qed.

(** X17: output that is only white space counts as no output: when the
    query process exits with status 0 and [strip] empties what it
    printed, the thread posts the callback with the empty output;
    handling it shows the one notice of an empty output, logs that line
    alone, and leaves the rows and the stored raw output alone. On exit
    status 0 the handler makes no use of the standard error text. *)
Theorem blank_output_is_empty (j : job) (stdout stderr : string) (g : gui) :
  j <> assessment_worker ->
  subprocess_run (argv ps_query_winsat_json) 30 = Completed 0 stdout stderr ->
  str_strip stdout = "" ->
  let acts := thread_callback j 0 "" (str_strip stderr) in
  thread_posts j = Some (Callback j 0 "" (str_strip stderr)) /\
  notices acts = [failure_notice EmptyOutput] /\
  text (exec acts g) = text g ++ ("[ERROR] Empty output." ++ LF) /\
  fields (exec acts g) = fields g /\ raw_json (exec acts g) = raw_json g /\
  (forall out err err', _handle_query_result 0 out err = _handle_query_result 0 out err').
Proof.
  intros Hj Hrun Hstrip acts.
  assert (Hacts : acts = _handle_query_result 0 "" (str_strip stderr)).
  { subst acts. destruct j; try reflexivity. contradiction. }
  assert (Hs : thread_script j = (ps_query_winsat_json, 30)).
  { destruct j; try reflexivity. contradiction. }
  split; [|rewrite Hacts; split; [|split; [|split; [|split]]]].
  - unfold thread_posts. rewrite thread_invocation_argv, Hs. simpl fst. simpl snd.
    rewrite Hrun, Hstrip. reflexivity.
  - reflexivity.
  - rewrite text_exec, log_text_grows by reflexivity. reflexivity.
  - apply fields_frame. reflexivity.
  - apply raw_json_frame. reflexivity.
  - reflexivity.
Qed.

End EndToEnd.

(** ** The rows, the copy action and the whole assessment flow *)

Section Flow.

Context {py : Python}.

Lemma set_rows_other (F : string -> string) (rows : list (string * string))
  (m : gmap string string) (l : string) :
  ~ In l (map fst rows) ->
  set_rows (map (fun lk : string * string =>
                   let '(ui_label, key) := lk in FieldSet ui_label (F key)) rows) m !! l
  = m !! l.
Proof.
  revert m. induction rows as [|[ui key] rows IH]; intros m H; [reflexivity|].
  change (set_rows (map (fun lk : string * string =>
                           let '(ui_label, key) := lk in FieldSet ui_label (F key)) rows)
                   (<[ui := F key]> m) !! l = m !! l).
  simpl in H. rewrite IH by tauto. apply lookup_insert_ne. tauto.
Qed.

(** X18: [_apply_scores] reads the object through the eight recognized
    keys only, and replaces the previous record whole: two objects that
    agree on those keys give the same effects, whatever else they hold
    and in whatever order, and the rows after showing an object do not
    depend on the object shown before. *)
Theorem apply_scores_reads_eight_keys (obj obj' : list (string * pyval float)) :
  (forall key, In key (map snd mapping) -> dict_get obj key = dict_get obj' key) ->
  _apply_scores obj = _apply_scores obj' /\
  (forall previous g,
     fields (exec (_apply_scores obj) (exec (_apply_scores previous) g))
     = fields (exec (_apply_scores obj') g)).
Proof.
  intros H.
  assert (E : _apply_scores obj = _apply_scores obj').
  { unfold _apply_scores. apply map_ext_in. intros [ui key] Hin.
    unfold shown_value. rewrite (H key); [reflexivity|].
    apply in_map_iff. exists (ui, key). auto. }
  split; [exact E|].
  intros previous g. rewrite <- E. apply map_eq. intros l.
  destruct (in_dec string_dec l (map fst mapping)) as [Hin|Hout].
  - apply in_map_iff in Hin as [[ui key] [<- Hin]]. simpl fst.
    rewrite !(fields_apply_scores obj _ ui key Hin). reflexivity.
  - rewrite !fields_exec. unfold _apply_scores.
    rewrite !set_rows_other by assumption. reflexivity.
Qed.

(** X19: Copy touches the clipboard, the status line and the notices
    only: the stored raw output, the rows, the log, the cursor and the
    pending timer are as before; and with an output stored a second click
    changes nothing more, the clipboard holding the output once. *)
Theorem copy_json_touches_clipboard_only (g : gui) :
  let g1 := step g (Click copy_btn) in
  raw_json g1 = raw_json g /\ fields g1 = fields g /\ text g1 = text g /\
  cursor g1 = cursor g /\ startup_timer g1 = startup_timer g /\
  (forall s, raw_json g = Some s -> s <> "" -> step g1 (Click copy_btn) = g1).
Proof.
  destruct g as [rj sv rn un cn cu tx fs cb sh th st].
  unfold step. simpl button_normal. destruct cn.
  - unfold command, copy_json. simpl raw_json.
    destruct rj as [[|c r]|]; repeat split; try reflexivity;
      intros s E Hs; try discriminate E; injection E as <-; try contradiction;
      reflexivity.
  - repeat split; intros; reflexivity.
Qed.

Lemma handle_query_result_stores (out err : string) (g : gui) :
  out <> "" -> raw_json (exec (_handle_query_result 0 out err) g) = Some out.
Proof.
  intros H. destruct (handle_query_result_raw_json 0 out err g) as [E|[E _]]; [|exact E].
  rewrite handle_query_result_parse by assumption.
  rewrite exec_app, raw_json_frame by reflexivity.
  rewrite exec_app, raw_json_frame; [reflexivity|].
  rewrite !existsb_app, parse_and_apply_keeps_raw_json. reflexivity.
Qed.

Lemma step_click (g : gui) (b : button) :
  button_normal g b = true -> step g (Click b) = exec (command b g) g.
Proof. intros H. unfold step. rewrite H. reflexivity. Qed.

Lemma step_callback (g : gui) (j : job) (rc : Z) (out err : string) :
  threads g = [j] ->
  step g (Callback j rc out err) = exec (thread_callback j rc out err) (with_threads [] g).
Proof.
  intros H. unfold step. rewrite H. simpl existsb.
  assert (Hjj : job_eqb j j = true) by (destruct j; reflexivity).
  rewrite Hjj, remove_job_single. reflexivity.
Qed.

Lemma log_text_assessment_done (out err : string) :
  log_text (run_assessment_done 0 out err) ""
  = (if str_bool out then "WinSAT output:" ++ LF ++ out ++ LF else "") ++
    (if str_bool err then "WinSAT stderr:" ++ LF ++ err ++ LF else "") ++
    LF ++ "Re-querying Win32_WinSAT…" ++ LF ++ LF.
Proof.
  unfold run_assessment_done. simpl negb. cbv iota.
  destruct out as [|c r], err as [|c' r']; simpl str_bool; cbv iota;
    unfold start_thread, thread_prologue, _log, _set_busy;
    cbn [app log_text fold_left];
    rewrite ?string_app_assoc; reflexivity.
Qed.

(** X20: the whole Run Assessment flow on success. From a ready window
    with nothing in flight, a click on Run, the assessment's callback
    with exit status 0 and the follow-up query's callback with exit
    status 0 and a text that decodes to a dict leave the window ready
    with nothing in flight and no notice shown; the text is stored as raw
    output, every row shows the value computed from the dict, and the log
    holds, in this order, the opening lines, what the assessment callback
    logged and the raw text, the follow-up query having deleted nothing. *)
Theorem assessment_flow_updates_rows (g : gui) (aout aerr t qerr : string)
  (d : list (string * pyval float)) :
  ready g = true -> threads g = [] -> t <> "" -> json_loads t = Return (PDict d) ->
  let g' := run g [Click run_btn;
                   Callback assessment_worker 0 aout aerr;
                   Callback refresh_after_assessment 0 t qerr] in
  ready g' = true /\ threads g' = [] /\ shown g' = shown g /\
  raw_json g' = Some t /\
  (forall ui_label key, In (ui_label, key) mapping ->
     fields g' !! ui_label = Some (shown_value key d)) /\
  text g'
  = ("Running: winsat formal …" ++ LF ++
     "Note: this can take a while and may require Administrator privileges." ++ LF ++ LF)
    ++ ((if str_bool aout then "WinSAT output:" ++ LF ++ aout ++ LF else "") ++
        (if str_bool aerr then "WinSAT stderr:" ++ LF ++ aerr ++ LF else "") ++
        LF ++ "Re-querying Win32_WinSAT…" ++ LF ++ LF)
    ++ ("Raw JSON:" ++ LF ++ t ++ LF).
Proof.
  intros Hr Hth Ht Hd g'.
  pose (g1 := exec run_assessment g).
  pose (g2 := exec (run_assessment_done 0 aout aerr) (with_threads [] g1)).
  pose (g3 := exec (_handle_query_result 0 t qerr) (with_threads [] g2)).
  assert (Hth1 : threads g1 = [assessment_worker]).
  { unfold g1. rewrite (proj2 (run_assessment_busy g)), Hth. reflexivity. }
  assert (Hth2 : threads g2 = [refresh_after_assessment]).
  { unfold g2. destruct (assessment_succeeded aout aerr) as (_ & _ & Hs).
    rewrite (proj2 (Hs (with_threads [] g1))). reflexivity. }
  assert (E : g' = g3).
  { change g' with (step (step (step g (Click run_btn))
                                (Callback assessment_worker 0 aout aerr))
                          (Callback refresh_after_assessment 0 t qerr)).
    rewrite (step_click g run_btn) by apply (proj1 (ready_iff g) Hr).
    change (exec (command run_btn g) g) with g1.
    rewrite (step_callback g1 assessment_worker) by exact Hth1.
    change (exec (thread_callback assessment_worker 0 aout aerr) (with_threads [] g1))
      with g2.
    rewrite (step_callback g2 refresh_after_assessment) by exact Hth2.
    reflexivity. }
  assert (Hp : parse_and_apply t
               = (_apply_scores d ++ [StatusSet "WinSAT scores updated."])%list).
  { unfold parse_and_apply. rewrite Hd. reflexivity. }
  assert (Hshape : _handle_query_result 0 t qerr
                   = (([RawJsonSet t] ++ _log "Raw JSON:" ++ _log t ++
                       _apply_scores d ++ [StatusSet "WinSAT scores updated."])
                      ++ _set_busy false "")%list).
  { rewrite handle_query_result_parse by assumption. rewrite Hp. reflexivity. }
  rewrite E. split; [|split; [|split; [|split; [|split]]]].
  - apply handle_query_result_ready.
  - unfold g3. rewrite threads_exec, handle_query_result_no_thread. reflexivity.
  - unfold g3. rewrite shown_exec, Hshape.
    change (shown (with_threads [] g2)) with (shown g2).
    unfold g2. rewrite shown_exec.
    change (shown (with_threads [] g1)) with (shown g1).
    unfold g1. rewrite shown_exec.
    assert (N1 : notices run_assessment = []) by reflexivity.
    assert (N2 : notices (run_assessment_done 0 aout aerr) = []).
    { unfold run_assessment_done. simpl negb. cbv iota.
      destruct (str_bool aout), (str_bool aerr); reflexivity. }
    rewrite N1, N2. rewrite !app_nil_r. reflexivity.
  - apply handle_query_result_stores, Ht.
  - intros ui_label key Hin. unfold g3. rewrite Hshape.
    rewrite exec_app, fields_frame by reflexivity.
    rewrite 4!exec_app, fields_frame by reflexivity.
    apply fields_apply_scores, Hin.
  - unfold g3. rewrite text_exec.
    change (text (with_threads [] g2)) with (text g2).
    rewrite log_text_grows; [|rewrite Hshape; reflexivity].
    unfold g2. rewrite text_exec.
    change (text (with_threads [] g1)) with (text g1).
    rewrite log_text_grows; [|apply (thread_callback_no_delete assessment_worker)].
    rewrite log_text_assessment_done.
    unfold g1. rewrite text_exec.
    rewrite Hshape.
    assert (T1 : log_text run_assessment (text g)
                 = "Running: winsat formal …" ++ LF ++
                   "Note: this can take a while and may require Administrator privileges."
                   ++ LF ++ LF) by reflexivity.
    assert (T3 : log_text
                   (([RawJsonSet t] ++ _log "Raw JSON:" ++ _log t ++
                     _apply_scores d ++ [StatusSet "WinSAT scores updated."])
                    ++ _set_busy false "") ""
                 = "Raw JSON:" ++ LF ++ t ++ LF).
    { unfold _apply_scores, mapping, _log, _set_busy.
      cbn [app map log_text fold_left].
      rewrite ?string_app_assoc. reflexivity. }
    rewrite T1, T3. rewrite string_app_assoc. reflexivity.
Qed.

End Flow.

(** ** The further properties on the samples *)

(** A machine that refuses to start PowerShell: the invoker raises and
    the thread posts nothing; the machine without PowerShell posts the
    callback of status 127. *)
Lemma thread_posts_unless_raised_witness :
  @thread_posts cpython locked_machine refresh_worker = None /\
  exists rc out err,
    @thread_posts cpython bare_machine refresh_worker
    = Some (Callback refresh_worker rc out err).
Proof.
  split.
  - apply (proj1 (@thread_posts_unless_raised cpython locked_machine refresh_worker)).
    exists "[WinError 5] Access is denied". vm_compute. reflexivity.
  - destruct (proj2 (@thread_posts_unless_raised cpython bare_machine refresh_worker)
                (Callback refresh_worker 127 ""
                   "PowerShell executable not found at: powershell")
                ltac:(vm_compute; reflexivity))
      as (rc & out & err & E & _).
    exists rc, out, err. rewrite <- E. vm_compute. reflexivity.
Defined.

Lemma run_powershell_raises_witness :
  fst (@run_powershell cpython locked_machine ps_query_winsat_json 30)
  = Raise "[WinError 5] Access is denied".
Proof.
  apply (proj2 (@run_powershell_raises cpython locked_machine ps_query_winsat_json 30
                  "[WinError 5] Access is denied")).
  vm_compute. reflexivity.
Defined.

(** A click on Refresh after the first query replaces the log. *)
Lemma new_run_discards_log_witness :
  text after_first_query <> "" /\
  text (@step cpython after_first_query (Click refresh_btn))
  = "Querying Win32_WinSAT via PowerShell…" ++ LF.
Proof.
  split; [vm_compute; discriminate|].
  apply (proj1 (@new_run_discards_log cpython after_first_query)).
  vm_compute. reflexivity.
Defined.

(** A second query that exits with status 1 keeps the stored [{}]. *)
Lemma failed_query_keeps_rows_witness :
  raw_json (exec (@_handle_query_result cpython 1 "" "denied") refreshing_again)
  = Some "{}" /\
  fields (exec (@_handle_query_result cpython 0 "not json" "") refreshing_again)
  = fields refreshing_again.
Proof.
  split.
  - rewrite (proj2 (proj1 (@failed_query_keeps_rows cpython 1 "" "denied" refreshing_again)
                      ltac:(left; discriminate))).
    vm_compute. reflexivity.
  - apply (proj1 (proj2 (@failed_query_keeps_rows cpython 0 "not json" "" refreshing_again))).
    vm_compute. reflexivity.
Defined.

(** A successful query sets the updated status and still ends on
    ["Ready."]. *)
Lemma status_after_callback_witness :
  In (StatusSet "WinSAT scores updated.") (@_handle_query_result cpython 0 "{}" "") /\
  status_var (exec (@_handle_query_result cpython 0 "{}" "") refreshing_again) = "Ready." /\
  status_var (exec (run_assessment_done 5 "" "denied") assessing) = "Ready.".
Proof.
  refine (conj _ (conj _ _)).
  - apply (proj1 (proj2 (@status_after_callback cpython 0 "{}" "" refreshing_again))).
    vm_compute. reflexivity.
  - apply (proj1 (@status_after_callback cpython 0 "{}" "" refreshing_again)).
  - apply (proj1 (proj2 (proj2 (@status_after_callback cpython 5 "" "denied" assessing)))).
    discriminate.
Defined.

(** After the first query Copy shows no notice. *)
Lemma reachable_raw_json_nonempty_witness :
  shown (@step cpython
           (@run cpython init [StartupTimer; Callback refresh_worker 0 "{}" ""])
           (Click copy_btn))
  = shown (@run cpython init [StartupTimer; Callback refresh_worker 0 "{}" ""]).
Proof.
  apply (proj2 (@reachable_raw_json_nonempty cpython
                  [StartupTimer; Callback refresh_worker 0 "{}" ""])).
  - vm_compute. reflexivity.
  - vm_compute. discriminate.
Defined.

Lemma refreshing_again_gated : gated refreshing_again.
Proof.
  split; [vm_compute; reflexivity|]. right.
  split; [vm_compute; reflexivity|]. exists refresh_worker. vm_compute. reflexivity.
Qed.

Lemma assessing_gated : gated assessing.
Proof.
  split; [vm_compute; reflexivity|]. right.
  split; [vm_compute; reflexivity|]. exists assessment_worker. vm_compute. reflexivity.
Qed.

(** An assessment that exits with status 0 needs the second callback;
    one that exits with status 5 does not. *)
Lemma busy_period_ends_witness :
  ready (@run cpython assessing
           [Callback assessment_worker 0 "Done." "";
            Callback refresh_after_assessment 0 "{}" ""]) = true /\
  ready (@step cpython assessing (Callback assessment_worker 5 "" "denied")) = true.
Proof.
  split.
  - destruct (@busy_period_ends cpython assessing assessment_worker 0 0 "Done." "" "{}" ""
                assessing_gated ltac:(vm_compute; reflexivity))
      as [[Hr _]|(_ & _ & _ & _ & Hr & _)].
    + vm_compute in Hr. discriminate Hr.
    + exact Hr.
  - destruct (@busy_period_ends cpython assessing assessment_worker 5 0 "" "denied" "" ""
                assessing_gated ltac:(vm_compute; reflexivity))
      as [[Hr _]|(_ & Hrc & _)].
    + exact Hr.
    + discriminate Hrc.
Defined.

(** While the second query runs, clicks on the three buttons and a late
    timer event change nothing. *)
Lemma busy_window_waits_for_callback_witness :
  @run cpython refreshing_again
    [Click refresh_btn; Click run_btn; StartupTimer; Click copy_btn]
  = refreshing_again.
Proof.
  apply (@busy_window_waits_for_callback cpython refreshing_again).
  - apply refreshing_again_gated.
  - vm_compute. reflexivity.
  - reflexivity.
Defined.

Lemma query_without_powershell_witness :
  @thread_posts cpython bare_machine refresh_worker
  = Some (Callback refresh_worker 127 "" "PowerShell executable not found at: powershell") /\
  text (exec (@thread_callback cpython refresh_worker 127 ""
                "PowerShell executable not found at: powershell") built_ui)
  = "[ERROR] PowerShell exit code: 127" ++ LF ++
    "PowerShell executable not found at: powershell" ++ LF.
Proof.
  destruct (@query_without_powershell cpython bare_machine refresh_worker built_ui
              ltac:(discriminate) ltac:(vm_compute; reflexivity))
    as (Hp & Ht & _).
  split.
  - rewrite Hp. vm_compute. reflexivity.
  - etransitivity; [exact Ht|]. vm_compute. reflexivity.
Defined.

Lemma assessment_timeout_ends_chain_witness :
  @thread_posts cpython stuck_machine assessment_worker
  = Some (Callback assessment_worker 124 "" "PowerShell timed out after 600 seconds.") /\
  ready (exec (@thread_callback cpython assessment_worker 124 ""
                 "PowerShell timed out after 600 seconds.") assessing) = true.
Proof.
  destruct (@assessment_timeout_ends_chain cpython stuck_machine assessing
              ltac:(vm_compute; reflexivity))
    as (Hp & _ & _ & _ & Hr).
  split; assumption.
Defined.

Lemma blank_output_is_empty_witness :
  @thread_posts cpython blank_machine refresh_worker
  = Some (Callback refresh_worker 0 "" "") /\
  notices (@thread_callback cpython refresh_worker 0 "" "") = [failure_notice EmptyOutput].
Proof.
  destruct (@blank_output_is_empty cpython blank_machine refresh_worker
              (" " ++ LF ++ "  " ++ LF) "" built_ui
              ltac:(discriminate) ltac:(vm_compute; reflexivity)
              ltac:(vm_compute; reflexivity))
    as (Hp & Hn & _).
  split.
  - rewrite Hp. vm_compute. reflexivity.
  - exact Hn.
Defined.

Lemma apply_scores_reads_eight_keys_witness :
  @_apply_scores cpython seven_score = @_apply_scores cpython seven_score_reordered.
Proof.
  apply (@apply_scores_reads_eight_keys cpython seven_score seven_score_reordered).
  intros key Hin. simpl in Hin.
  repeat (destruct Hin as [<-|Hin]; [reflexivity|]).
  contradiction.
Defined.

Lemma copy_json_touches_clipboard_only_witness :
  @step cpython (@step cpython after_first_query (Click copy_btn)) (Click copy_btn)
  = @step cpython after_first_query (Click copy_btn).
Proof.
  apply (proj2 (proj2 (proj2 (proj2 (proj2
           (@copy_json_touches_clipboard_only cpython after_first_query))))) "{}").
  - vm_compute. reflexivity.
  - discriminate.
Defined.

(** The whole flow after the first query, the follow-up query returning
    [{"CPUScore": 7}]. *)
Lemma assessment_flow_updates_rows_witness :
  fields (@run cpython after_first_query
            [Click run_btn;
             Callback assessment_worker 0 "Done." "";
             Callback refresh_after_assessment 0 first_record_json ""]) !! "CPUScore"
  = Some "7" /\
  raw_json (@run cpython after_first_query
              [Click run_btn;
               Callback assessment_worker 0 "Done." "";
               Callback refresh_after_assessment 0 first_record_json ""])
  = Some first_record_json.
Proof.
  destruct (@assessment_flow_updates_rows cpython after_first_query "Done." ""
              first_record_json "" [("CPUScore", PInt 7)]
              ltac:(vm_compute; reflexivity) ltac:(vm_compute; reflexivity)
              ltac:(discriminate) ltac:(vm_compute; reflexivity))
    as (_ & _ & _ & Hraw & Hrows & _).
  split; [|exact Hraw].
  rewrite (Hrows "CPUScore" "CPUScore" ltac:(simpl; tauto)). reflexivity.
Defined.

(** ** The Run Assessment flow *)

Section AssessmentFlow.

Context {py : Python} {host : Host}.

(** The event a thread posts carries the triple its [run_powershell]
    returned. *)
Lemma thread_posts_callback (j : job) (rc : Z) (out err : string) :
  thread_posts j = Some (Callback j rc out err) <->
  fst (thread_invocation j) = Return (rc, out, err).
Proof.
  unfold thread_posts.
  destruct (fst (thread_invocation j)) as [[[rc' out'] err']|m]; split; intros H;
    try discriminate H.
  - injection H as <- <- <-. reflexivity.
  - injection H as <- <- <-. reflexivity.
Qed.

(** C3: the Run Assessment flow. A click on Run in a ready window with
    nothing in flight leaves the window busy with the assessment thread
    alone in flight; that thread runs the assessment script with a
    timeout of 600 seconds and posts its callback with the exit status
    [run_powershell] returned. In such a state [g], the callback with
    exit status [rc] starts the follow-up thread exactly when [rc] is 0.
    On status 0 the effects are log insertions (among them the
    assessment's output, when there is any), then [_set_busy(True, ...)],
    then the start of [_refresh_after_assessment]; the window is busy
    after every prefix of them and at the end, the log then holds the
    output, the thread started runs the query script with a timeout of 30
    seconds, and its callback is handled by [_handle_query_result], after
    which the window is ready with nothing in flight. On any other status
    no thread is started, the one notice shown is the failure notice, the
    window is ready with nothing in flight, and no callback of a
    follow-up query is accepted. *)
Theorem assessment_chain (g : gui) (rc : Z) (out err : string) :
  busy g = true -> threads g = [assessment_worker] ->
  let g' := step g (Callback assessment_worker rc out err) in
  let acts := thread_callback assessment_worker rc out err in
  let failed :=
    ShowError APP_TITLE
      ("WinSAT assessment failed." ++ LF ++
       "Try running this program from an elevated (Admin) terminal." ++ LF ++
       "See log for details.") in
  (forall g0, ready g0 = true -> threads g0 = [] ->
     busy (step g0 (Click run_btn)) = true /\
     threads (step g0 (Click run_btn)) = [assessment_worker]) /\
  fst (thread_invocation assessment_worker)
  = fst (run_powershell ps_run_winsat_assessment 600) /\
  (thread_posts assessment_worker = Some (Callback assessment_worker rc out err) <->
   fst (run_powershell ps_run_winsat_assessment 600) = Return (rc, out, err)) /\
  g' = exec acts (with_threads [] g) /\
  (threads g' = [refresh_after_assessment] <-> rc = 0) /\
  (started acts = [refresh_after_assessment] <-> rc = 0) /\
  (rc = 0 ->
   (exists logged,
      acts = (logged ++ _set_busy true "Re-querying Win32_WinSAT…"
                     ++ [ThreadStart refresh_after_assessment])%list /\
      forallb is_text_insert logged = true /\
      (out <> "" -> In (TextInsert (out ++ LF)) logged)) /\
   existsb is_enable acts = false /\
   (forall n, busy (exec (firstn n acts) (with_threads [] g)) = true) /\
   busy g' = true /\
   text g'
   = text g ++
     (if str_bool out then "WinSAT output:" ++ LF ++ out ++ LF else "") ++
     (if str_bool err then "WinSAT stderr:" ++ LF ++ err ++ LF else "") ++
     LF ++ "Re-querying Win32_WinSAT…" ++ LF ++ LF /\
   fst (thread_invocation refresh_after_assessment)
   = fst (run_powershell ps_query_winsat_json 30) /\
   (forall rc' out' err',
      thread_posts refresh_after_assessment
      = Some (Callback refresh_after_assessment rc' out' err') <->
      fst (run_powershell ps_query_winsat_json 30) = Return (rc', out', err')) /\
   (forall rc' out' err',
      let g'' := step g' (Callback refresh_after_assessment rc' out' err') in
      g'' = exec (_handle_query_result rc' out' err') (with_threads [] g') /\
      ready g'' = true /\ threads g'' = [])) /\
  (rc <> 0 ->
   started acts = [] /\ threads g' = [] /\
   notices acts = [failed] /\ shown g' = (shown g ++ [failed])%list /\
   ready g' = true /\
   (forall rc' out' err',
      step g' (Callback refresh_after_assessment rc' out' err') = g')).
Proof.
  intros Hb Hth g' acts failed.
  assert (E : g' = exec acts (with_threads [] g)).
  { apply step_callback, Hth. }
  assert (Hok : rc = 0 -> busy g' = true /\ threads g' = [refresh_after_assessment]).
  { intros ->. rewrite E. destruct (assessment_succeeded out err) as (_ & _ & Hs).
    apply (Hs (with_threads [] g)). }
  assert (Hko : rc <> 0 -> ready g' = true /\ threads g' = []).
  { intros N. rewrite E. destruct (assessment_failed rc out err N) as (_ & _ & Hs).
    apply (Hs (with_threads [] g)). }
  split; [|split; [|split; [|split; [|split; [|split; [|split]]]]]].
  - intros g0 Hr H0. rewrite (step_click g0 run_btn) by apply (proj1 (ready_iff g0) Hr).
    destruct (run_assessment_busy g0) as [Hb0 Ht0].
    split; [exact Hb0|]. simpl command. rewrite Ht0, H0. reflexivity.
  - reflexivity.
  - apply (thread_posts_callback assessment_worker).
  - exact E.
  - split.
    + intros H. destruct (Z.eq_dec rc 0) as [E0|N]; [assumption|].
      rewrite (proj2 (Hko N)) in H. discriminate H.
    + intros E0. apply (Hok E0).
  - split.
    + intros H. destruct (Z.eq_dec rc 0) as [E0|N]; [assumption|].
      destruct (assessment_failed rc out err N) as [H0 _].
      simpl thread_callback in acts. subst acts. rewrite H0 in H. discriminate H.
    + intros ->. apply assessment_succeeded.
  - intros E0. destruct (Hok E0) as [Hb' Ht']. subst rc.
    destruct (assessment_succeeded out err) as (_ & Hnoenable & _).
    split; [|split; [|split; [|split; [|split; [|split; [|split]]]]]].
    + eexists. split; [apply run_assessment_done_zero|]. split.
      * destruct (str_bool err), (str_bool out); reflexivity.
      * intros Ho. destruct out as [|c r]; [contradiction|].
        simpl str_bool. cbv iota. right. left. reflexivity.
    + exact Hnoenable.
    + intros n. apply busy_kept; [apply existsb_firstn, Hnoenable|].
      apply busy_iff. intros k. rewrite with_threads_buttons. apply busy_iff, Hb.
    + exact Hb'.
    + rewrite E, text_exec.
      change (text (with_threads [] g)) with (text g).
      rewrite log_text_grows
        by apply (thread_callback_no_delete assessment_worker 0 out err).
      subst acts. simpl thread_callback. rewrite log_text_assessment_done. reflexivity.
    + reflexivity.
    + intros rc' out' err'. apply (thread_posts_callback refresh_after_assessment).
    + intros rc' out' err' g''.
      assert (E' : g'' = exec (_handle_query_result rc' out' err') (with_threads [] g')).
      { apply (step_callback g' refresh_after_assessment), Ht'. }
      split; [exact E'|]. rewrite E'. split; [apply handle_query_result_ready|].
      rewrite threads_exec, handle_query_result_no_thread. reflexivity.
  - intros N. destruct (Hko N) as [Hr' Ht'].
    destruct (assessment_failed rc out err N) as (H0 & Hn & _).
    split; [exact H0|]. split; [exact Ht'|]. split; [exact Hn|].
    split; [|split; [exact Hr'|]].
    + rewrite E, shown_exec. subst acts. simpl thread_callback.
      unfold notices. rewrite Hn. reflexivity.
    + intros rc' out' err'. unfold step. rewrite Ht'. reflexivity.
Qed.

End AssessmentFlow.

(** The assessment started after the first query: on exit status 0 the
    follow-up query is in flight and the log holds the output; on exit
    status 5 nothing is in flight and the window is ready. *)
Lemma assessment_chain_witness :
  threads (@step cpython assessing (Callback assessment_worker 0 "Done." ""))
  = [refresh_after_assessment] /\
  busy (@step cpython assessing (Callback assessment_worker 0 "Done." "")) = true /\
  text (@step cpython assessing (Callback assessment_worker 0 "Done." ""))
  = text assessing ++ "WinSAT output:" ++ LF ++ "Done." ++ LF ++
    LF ++ "Re-querying Win32_WinSAT…" ++ LF ++ LF /\
  threads (@step cpython assessing (Callback assessment_worker 5 "" "Access denied."))
  = [] /\
  ready (@step cpython assessing (Callback assessment_worker 5 "" "Access denied."))
  = true.
Proof.
  assert (Hb : busy assessing = true) by (vm_compute; reflexivity).
  assert (Hth : threads assessing = [assessment_worker]) by (vm_compute; reflexivity).
  destruct (@assessment_chain cpython slow_machine assessing 0 "Done." "" Hb Hth)
    as (_ & _ & _ & _ & Hiff & _ & Hzero & _).
  destruct (Hzero eq_refl) as (_ & _ & _ & Hbusy & Htext & _).
  destruct (@assessment_chain cpython slow_machine assessing 5 "" "Access denied." Hb Hth)
    as (_ & _ & _ & _ & _ & _ & _ & Hfail).
  destruct (Hfail ltac:(discriminate)) as (_ & Hnone & _ & _ & Hready & _).
  refine (conj _ (conj Hbusy (conj Htext (conj Hnone Hready)))).
  apply (proj2 Hiff). reflexivity.
Defined.
